(** * pysradb command line interface: a shallow embedding of [pysradb/cli.py]

    The module under study is a thin command-line layer: every handler
    probes the file system for a metadata snapshot, builds a metadata source
    (local SQLite snapshot or web API), makes one or more calls on it and
    hands the resulting table to a printer.  The interesting content is
    therefore *which* external calls are made, with *which* arguments, in
    *which* order, and what happens when one of them raises.

    The embedding is a writer/exception monad: a computation yields the list
    of external events it performed and either a value or a raised Python
    exception.  External collaborators (pandas, the file system, the
    [SRAweb]/[SRAdb] classes, the three search classes) are fields of an
    environment record [Env]; the code of [cli.py] itself is translated
    function by function.  Paths follow POSIX ([os.sep = "/"],
    [os.linesep = "\n"]). *)

From Stdlib Require Import Ascii ZArith.
From stdpp Require Import base strings list gmap.

Local Open Scope string_scope.
Local Open Scope list_scope.

(** ** Python strings

    A character is a Unicode code point below 256, held in [ascii] (whose
    values are the 256 eight-bit codes); a string is a sequence of such
    code points.  The whitespace and case classes below are Python's on
    that range; text with code points from 256 on is not represented. *)

Module PyStr.

Definition tab : ascii := Ascii.ascii_of_nat 9%nat.
Definition newline : ascii := Ascii.ascii_of_nat 10%nat.

Definition TAB : string := String tab "".
Definition NL : string := String newline "".

(** [os.linesep] and [os.sep] on POSIX. *)
Definition linesep : string := NL.
Definition sep : string := "/".

(** [c.isspace()]: the code points below 256 that Python treats as
    whitespace, for [str.strip]/[str.lstrip] without argument and for the
    regex class [\s] on [str]: U+0009 to U+000D (TAB, LF, VT, FF, CR),
    U+001C to U+001F (FS, GS, RS, US), U+0020 (space), U+0085 (NEL) and
    U+00A0 (no-break space). *)
Definition isspace (c : ascii) : bool :=
  let n := Ascii.nat_of_ascii c in
  (((9 <=? n) && (n <=? 13)) || ((28 <=? n) && (n <=? 32))
   || (n =? 133) || (n =? 160))%nat.

(** The code points below 256 that [str.lower] changes: A to Z, and
    U+00C0 to U+00DE except the multiplication sign U+00D7; each goes to
    the code point 32 above. *)
Definition isupper (c : ascii) : bool :=
  let n := Ascii.nat_of_ascii c in
  (((65 <=? n) && (n <=? 90))
   || ((192 <=? n) && (n <=? 214)) || ((216 <=? n) && (n <=? 222)))%nat.

Definition lower_char (c : ascii) : ascii :=
  if isupper c then Ascii.ascii_of_nat (Ascii.nat_of_ascii c + 32)%nat else c.

(** [s.lower()] *)
Fixpoint lower (s : string) : string :=
  match s with
  | EmptyString => EmptyString
  | String c r => String (lower_char c) (lower r)
  end.

(** [s.startswith(p)] *)
Fixpoint startswith (s p : string) : bool :=
  match p, s with
  | EmptyString, _ => true
  | String _ _, EmptyString => false
  | String a p', String b s' => Ascii.eqb a b && startswith s' p'
  end.

(** [s.endswith(p)]: the last [len(p)] characters of [s] are [p]. *)
Definition endswith (s p : string) : bool :=
  let n := String.length s in
  let m := String.length p in
  (m <=? n)%nat && String.eqb (String.substring (n - m) m s) p.

(** [s.lstrip()] *)
Fixpoint lstrip (s : string) : string :=
  match s with
  | EmptyString => EmptyString
  | String c r => if isspace c then lstrip r else s
  end.

(** [s.lstrip(" ")] *)
Fixpoint lstrip_space (s : string) : string :=
  match s with
  | EmptyString => EmptyString
  | String c r => if Ascii.eqb c " " then lstrip_space r else s
  end.

(** [s.rstrip()]: a trailing character is dropped when it is whitespace
    and everything after it has been dropped too. *)
Fixpoint rstrip (s : string) : string :=
  match s with
  | EmptyString => EmptyString
  | String c r =>
      match rstrip r with
      | EmptyString => if isspace c then EmptyString else String c EmptyString
      | r' => String c r'
      end
  end.

(** [s.strip()] *)
Definition strip (s : string) : string := rstrip (lstrip s).

(** [sep.join(l)] *)
Fixpoint join (sp : string) (l : list string) : string :=
  match l with
  | [] => ""
  | [x] => x
  | x :: r => x +:+ sp +:+ join sp r
  end.

(** [s.split("\n")]: cut at every line feed, empty pieces kept; the
    result is never the empty list. *)
Fixpoint split_lines (s : string) : list string :=
  match s with
  | EmptyString => [""]
  | String c r =>
      if Ascii.eqb c newline then "" :: split_lines r
      else match split_lines r with
           | h :: t => String c h :: t
           | [] => [String c ""]
           end
  end.

(** [bool(s)] for an optional string: [None] and [""] are falsy. *)
Definition truthy (o : option string) : bool :=
  match o with
  | None => false
  | Some s => negb (String.eqb s "")
  end.

(** [os.path.join(a, b)] of [posixpath]. *)
Definition os_path_join (a b : string) : string :=
  if startswith b sep then b
  else if String.eqb a "" || endswith a sep then a +:+ b
  else a +:+ sep +:+ b.

(** *** [re.sub] for the patterns of [download]

    Every pattern of the source is either a fixed sequence of character
    classes ([\s\s\s], [\s\s], [\s\t], [\t\s]) or one class repeated
    ([\t+], [\s+]).  [re.sub] replaces the leftmost non-overlapping
    matches, scanning left to right. *)

Definition is_tab (c : ascii) : bool := Ascii.eqb c tab.

Fixpoint match_classes (cls : list (ascii -> bool)) (s : string) : bool :=
  match cls, s with
  | [], _ => true
  | _ :: _, EmptyString => false
  | p :: cls', String c r => p c && match_classes cls' r
  end.

(** [skip] counts the characters still covered by the match in progress. *)
Fixpoint sub_classes_from (skip : nat) (cls : list (ascii -> bool))
    (repl : string) (s : string) : string :=
  match s with
  | EmptyString => EmptyString
  | String c r =>
      match skip with
      | S k => sub_classes_from k cls repl r
      | O =>
          if match_classes cls s
          then repl +:+ sub_classes_from (Nat.pred (length cls)) cls repl r
          else String c (sub_classes_from O cls repl r)
      end
  end.

(** [re.sub(cls, repl, s)] for a non-empty fixed sequence of classes. *)
Definition sub_classes (cls : list (ascii -> bool)) (repl s : string) : string :=
  sub_classes_from O cls repl s.

Fixpoint sub_plus_from (in_run : bool) (p : ascii -> bool)
    (repl : string) (s : string) : string :=
  match s with
  | EmptyString => EmptyString
  | String c r =>
      if p c
      then (if in_run then "" else repl) +:+ sub_plus_from true p repl r
      else String c (sub_plus_from false p repl r)
  end.

(** [re.sub(p+, repl, s)]: every maximal run of [p] becomes [repl]. *)
Definition sub_plus (p : ascii -> bool) (repl s : string) : string :=
  sub_plus_from false p repl s.

End PyStr.

Import PyStr.

(** ** Data model *)

(** A pandas table as far as [cli.py] looks at it: the column labels and
    the rows; [len(df.index)] is the number of rows. *)
Record DataFrame := {
  columns : list string;
  rows : list (list string)
}.

Definition index_len (df : DataFrame) : nat := length (rows df).

(** A positional accession argument: one string (subparsers that declare
    the positional without [nargs]) or a list ([nargs="+"]). *)
Inductive pyids :=
| PyOne (s : string)
| PyList (l : list string).

(** The conversion methods of the metadata-source contract. *)
Inductive conversion :=
| M_gse_to_gsm | M_gse_to_srp
| M_gsm_to_gse | M_gsm_to_srp | M_gsm_to_srr | M_gsm_to_srs | M_gsm_to_srx
| M_srp_to_gse | M_srp_to_srr | M_srp_to_srs | M_srp_to_srx
| M_srr_to_gsm | M_srr_to_srp | M_srr_to_srs | M_srr_to_srx
| M_srs_to_gsm | M_srs_to_srx
| M_srx_to_srp | M_srx_to_srr | M_srx_to_srs.

(** The module-level functions that [set_defaults(func=...)] can name. *)
Inductive handler :=
| H_metadb | H_metadata | H_download | H_search
| H_conv (c : conversion).

(** Values stored in the [vars(args)] dictionary. *)
Inductive pyval :=
| VNone
| VStr (s : string)
| VInt (z : Z)
| VList (l : list string)
| VFunc (h : handler).

Definition of_opt_str (o : option string) : pyval :=
  match o with None => VNone | Some s => VStr s end.
Definition of_opt_int (o : option Z) : pyval :=
  match o with None => VNone | Some z => VInt z end.
Definition of_opt_list (o : option (list string)) : pyval :=
  match o with None => VNone | Some l => VList l end.

(** Python exceptions that cross [cli.py].  The carried string of the two
    search exceptions is [str(e)]. *)
Inductive exn :=
| RuntimeError (msg : string)
| MissingQueryException (msg : string)
| IncorrectFieldException (msg : string)
| KeyError (key : string)
| OtherException (msg : string).

(** [str(e)]; a [KeyError] shows its key quoted. *)
Definition str_exn (e : exn) : string :=
  match e with
  | RuntimeError m | MissingQueryException m | IncorrectFieldException m
  | OtherException m => m
  | KeyError k => "'" +:+ k +:+ "'"
  end.

Inductive outcome (A : Type) :=
| Return (a : A)
| Raise (e : exn).
Arguments Return {A} a.
Arguments Raise {A} e.

Inductive separator := Comma | Tab.

(** Which class [get_sra_object] instantiates. *)
Inductive source_kind :=
| SRAweb
| SRAdb (path : string).

Inductive search_backend := EnaSearch | GeoSearch | SraSearch.

(** ** External events

    One constructor per call that leaves [cli.py].  Keyword arguments the
    call site omits are [None]. *)
Inductive event :=
| EvToCsv (df : DataFrame) (path : string) (s : separator)
| EvPrint (text : string)
| EvNewSource (k : source_kind)
| EvResolve (m : conversion) (ids : pyids)
    (detailed sample_attribute expand_sample_attributes : bool)
| EvSraMetadata (ids : pyids)
    (assay detailed sample_attribute expand_sample_attributes : option bool)
| EvReadCsv (text : string)
| EvDownload (df : DataFrame) (out_dir : string)
    (filter_by_srx : option (list string)) (skip_confirmation : bool)
    (protocol url_col : option string)
| EvClose
| EvNewSearch (b : search_backend) (verbosity return_max : Z)
    (args : list pyval)
| EvSearch
| EvGetDf
| EvDownloadSradbFile (out_dir : string) (overwrite keep_gz : bool).

(** ** The writer/exception monad *)

Definition M (A : Type) : Type := list event * outcome A.

Definition ret {A} (a : A) : M A := ([], Return a).
Definition raise {A} (e : exn) : M A := ([], Raise e).

Definition bind {A B} (m : M A) (k : A -> M B) : M B :=
  match m with
  | (t, Return a) => let '(t', r) := k a in (t ++ t', r)
  | (t, Raise e) => (t, Raise e)
  end.

Notation "'let*' x ':=' m 'in' k" := (bind m (fun x => k))
  (at level 10, x pattern, m at level 100, k at level 200).

Notation "m ';;' k" := (bind m (fun _ => k))
  (at level 100, k at level 200, right associativity).

(** An external call: the event is recorded, the collaborator answers. *)
Definition call {A} (ev : event) (answer : outcome A) : M A := ([ev], answer).

Definition trace {A} (m : M A) : list event := fst m.
Definition result {A} (m : M A) : outcome A := snd m.

(** [for x in l: body(x)] *)
Fixpoint for_each {A} (l : list A) (body : A -> M unit) : M unit :=
  match l with
  | [] => ret tt
  | x :: r => body x ;; for_each r body
  end.

(** [try: m  except (MissingQueryException, IncorrectFieldException) as e: h(e)] *)
Definition try_except_query {A} (m : M A) (h : exn -> M A) : M A :=
  match m with
  | (t, Raise (MissingQueryException msg)) =>
      let '(t', r) := h (MissingQueryException msg) in (t ++ t', r)
  | (t, Raise (IncorrectFieldException msg)) =>
      let '(t', r) := h (IncorrectFieldException msg) in (t ++ t', r)
  | other => other
  end.

(** What [print] calls have put on standard output. *)
Fixpoint stdout_of (t : list event) : string :=
  match t with
  | [] => ""
  | EvPrint s :: r => s +:+ NL +:+ stdout_of r
  | _ :: r => stdout_of r
  end.

(** ** External collaborators *)

(** The contract shared by [SRAweb] and [SRAdb]; [src_kind] is the class
    of the object, which Python code could inspect.  A method answers with
    a value or an exception, as a function of its arguments. *)
Record SraSource := {
  src_kind : source_kind;
  src_resolve : conversion -> pyids -> bool -> bool -> bool -> outcome DataFrame;
  src_sra_metadata : pyids -> option bool -> option bool -> option bool ->
                     option bool -> outcome DataFrame;
  src_download : DataFrame -> string -> option (list string) -> bool ->
                 option string -> option string -> outcome unit;
  src_close : outcome unit
}.

Record SearchInstance := {
  inst_search : outcome unit;
  inst_get_df : outcome DataFrame
}.

Record Env := {
  getcwd : string;
  isfile : string -> bool;
  (** the lines iterated from [sys.stdin] *)
  stdin : list string;
  (** [df.to_string(index=False, justify="left", header=False, col_space=0)] *)
  to_string : DataFrame -> string;
  (** [df.to_csv(path, index=False, header=True, sep=...)] *)
  to_csv : DataFrame -> string -> separator -> outcome unit;
  (** [pd.read_csv(StringIO(text), sep="\t")] *)
  read_csv : string -> outcome DataFrame;
  (** [SRAweb()] and [SRAdb(path)] *)
  new_source : source_kind -> outcome SraSource;
  (** [EnaSearch(...)], [GeoSearch(...)], [SraSearch(...)] *)
  new_search : search_backend -> Z -> Z -> list pyval -> outcome SearchInstance;
  download_sradb_file : string -> bool -> bool -> outcome unit
}.

(** ** [cli.py], function by function *)

Section Cli.

Variable env : Env.

(** [_print_save_df(df, saveto=None)].  Inside the [if saveto:] branch
    [saveto] is a non-empty string, bound here to [path].  The call
    [pd.set_option("display.max_colwidth", None)] only configures the
    rendering that [to_string] stands for. *)
Definition _print_save_df (df : DataFrame) (saveto : option string) : M unit :=
  if truthy saveto then
    let path := default "" saveto in
    if endswith (lower path) ".csv"
    then call (EvToCsv df path Comma) (to_csv env df path Comma)
    else call (EvToCsv df path Tab) (to_csv env df path Tab)
  else
    if (0 <? index_len df)%nat then
      let to_print := lstrip (to_string env df) in
      let to_print_split := split_lines to_print in
      let to_print :=
        fold_left (fun acc line => acc ++ [lstrip line])
                  to_print_split [join TAB (columns df)] in
      call (EvPrint (join linesep to_print)) (Return tt)
    else ret tt.

(** [_check_sradb_file(db)] *)
Definition _check_sradb_file (db : option string) : M string :=
  match db with
  | None =>
      let db := os_path_join (getcwd env) "SRAmetadb.sqlite" in
      if isfile env db then ret db
      else ret "web"
  | Some db =>
      if negb (isfile env db)
      then raise (RuntimeError (db +:+ " does not exist"))
      else ret db
  end.

(** [get_sra_object(db="web")] *)
Definition get_sra_object (db : string) : M SraSource :=
  if String.eqb db "web"
  then call (EvNewSource SRAweb) (new_source env SRAweb)
  else call (EvNewSource (SRAdb db)) (new_source env (SRAdb db)).

(** [metadb(out_dir, overwrite, keep_gz)] *)
Definition metadb (out_dir : option string) (overwrite keep_gz : bool) : M unit :=
  let out_dir := match out_dir with None => getcwd env | Some d => d end in
  call (EvDownloadSradbFile out_dir overwrite keep_gz)
       (download_sradb_file env out_dir overwrite keep_gz).

(** [metadata(srp_id, db, assay, desc, detailed, expand, saveto)] *)
Definition metadata (srp_id : pyids) (db : option string)
    (assay desc detailed expand : bool) (saveto : option string) : M unit :=
  let* db := _check_sradb_file db in
  let* sradb := get_sra_object db in
  let* df := call (EvSraMetadata srp_id (Some assay) (Some detailed)
                                 (Some desc) (Some expand))
                  (src_sra_metadata sradb srp_id (Some assay) (Some detailed)
                                    (Some desc) (Some expand)) in
  _print_save_df df saveto ;;
  call EvClose (src_close sradb).

(** The body of the [for index, line in enumerate(sys.stdin)] loop of
    [download]: the line appended to [text]. *)
Definition normalise_line (index : nat) (line : string) : string :=
  let line := strip line in
  let line := lstrip_space line in
  let line := sub_classes [isspace; isspace; isspace] TAB line in
  let line := sub_classes [isspace; isspace] TAB line in
  let line := sub_plus is_tab TAB line in
  let line := sub_classes [isspace; is_tab] TAB line in
  let line := sub_classes [is_tab; isspace] TAB line in
  let line := if (index =? 0)%nat then sub_plus isspace TAB line else line in
  line +:+ NL.

Fixpoint stdin_text (index : nat) (lines : list string) (text : string) : string :=
  match lines with
  | [] => text
  | line :: r => stdin_text (S index) r (text +:+ normalise_line index line)
  end.

(** [not srp] for an optional list *)
Definition not_list (l : option (list string)) : bool :=
  match l with
  | None | Some [] => true
  | Some (_ :: _) => false
  end.

(** [download(out_dir, db, srx, srp, skip_confirmation, col="sra_url",
    use_wget=True)] *)
Definition download (out_dir db : option string) (srx srp : option (list string))
    (skip_confirmation : bool) (col : string) (use_wget : bool) : M unit :=
  let protocol := if use_wget then "ftp" else "fasp" in
  let* db := _check_sradb_file db in
  let out_dir :=
    match out_dir with
    | None => os_path_join (getcwd env) "pysradb_downloads"
    | Some d => d
    end in
  let* sradb := get_sra_object db in
  (if not_list srp then
     let text := stdin_text 0 (stdin env) "" in
     let* df := call (EvReadCsv text) (read_csv env text) in
     call (EvDownload df out_dir srx true (Some protocol) (Some col))
          (src_download sradb df out_dir srx true (Some protocol) (Some col))
   else
     for_each (default [] srp) (fun srp_x =>
       let* metadata :=
         call (EvSraMetadata (PyOne srp_x) None (Some true) None None)
              (src_sra_metadata sradb (PyOne srp_x) None (Some true) None None) in
       call (EvDownload metadata out_dir srx skip_confirmation None None)
            (src_download sradb metadata out_dir srx skip_confirmation None None))) ;;
  call EvClose (src_close sradb).

(** [fields[key]] *)
Definition getitem (fields : gmap string pyval) (key : string) : M pyval :=
  match fields !! key with
  | Some v => ret v
  | None => raise (KeyError key)
  end.

(** The argument expressions [fields[k1], fields[k2], ...], evaluated
    left to right. *)
Fixpoint getitems (fields : gmap string pyval) (keys : list string) : M (list pyval) :=
  match keys with
  | [] => ret []
  | k :: r =>
      let* v := getitem fields k in
      let* vs := getitems fields r in
      ret (v :: vs)
  end.

(** [search(saveto, db, verbosity, return_max, fields)] *)
Definition search (saveto db : option string) (verbosity return_max : Z)
    (fields : gmap string pyval) : M unit :=
  let* caught :=
    try_except_query
      (let* instance :=
         if bool_decide (db = Some "ena") then
           let* args :=
             getitems fields
             ["query"; "accession"; "organism"; "layout"; "mbases";
              "publication_date"; "platform"; "selection"; "source";
              "strategy"; "title"] in
           let* instance := call (EvNewSearch EnaSearch verbosity return_max args)
                                 (new_search env EnaSearch verbosity return_max args) in
           call EvSearch (inst_search instance) ;;
           ret instance
         else if bool_decide (db = Some "geo") then
           let* args :=
             getitems fields
             ["query"; "accession"; "organism"; "layout"; "mbases";
              "publication_date"; "platform"; "selection"; "source";
              "strategy"; "title";
              "geo_query"; "geo_dataset_type"; "geo_entry_type"] in
           let* instance := call (EvNewSearch GeoSearch verbosity return_max args)
                                 (new_search env GeoSearch verbosity return_max args) in
           call EvSearch (inst_search instance) ;;
           ret instance
         else
           let* args :=
             getitems fields
             ["query"; "accession"; "organism"; "layout"; "mbases";
              "publication_date"; "platform"; "selection"; "source";
              "strategy"; "title"] in
           let* instance := call (EvNewSearch SraSearch verbosity return_max args)
                                 (new_search env SraSearch verbosity return_max args) in
           call EvSearch (inst_search instance) ;;
           ret instance
       in ret (Some instance))
      (fun e => call (EvPrint (str_exn e)) (Return tt) ;; ret None) in
  match caught with
  | None => ret tt
  | Some instance =>
      let* df := call EvGetDf (inst_get_df instance) in
      _print_save_df df saveto
  end.

(** *** The identifier-conversion handlers *)

(** [gse_to_gsm(gse_ids, db, saveto, detailed, desc, expand)] *)
Definition gse_to_gsm (gse_ids : pyids) (db saveto : option string)
    (detailed desc expand : bool) : M unit :=
  let* db := _check_sradb_file db in
  let* sradb := get_sra_object db in
  let* df := call (EvResolve M_gse_to_gsm gse_ids detailed desc expand)
                  (src_resolve sradb M_gse_to_gsm gse_ids detailed desc expand) in
  _print_save_df df saveto ;;
  call EvClose (src_close sradb).

(** [gse_to_srp(gse_ids, db, saveto, detailed, desc, expand)] *)
Definition gse_to_srp (gse_ids : pyids) (db saveto : option string)
    (detailed desc expand : bool) : M unit :=
  let* db := _check_sradb_file db in
  let* sradb := get_sra_object db in
  let* df := call (EvResolve M_gse_to_srp gse_ids detailed desc expand)
                  (src_resolve sradb M_gse_to_srp gse_ids detailed desc expand) in
  _print_save_df df saveto ;;
  call EvClose (src_close sradb).

(** [gsm_to_gse(gsm_ids, db, saveto, detailed, desc, expand)] *)
Definition gsm_to_gse (gsm_ids : pyids) (db saveto : option string)
    (detailed desc expand : bool) : M unit :=
  let* db := _check_sradb_file db in
  let* sradb := get_sra_object db in
  let* df := call (EvResolve M_gsm_to_gse gsm_ids detailed desc expand)
                  (src_resolve sradb M_gsm_to_gse gsm_ids detailed desc expand) in
  _print_save_df df saveto ;;
  call EvClose (src_close sradb).

(** [gsm_to_srp(gsm_ids, db, saveto, detailed, desc, expand)] *)
Definition gsm_to_srp (gsm_ids : pyids) (db saveto : option string)
    (detailed desc expand : bool) : M unit :=
  let* db := _check_sradb_file db in
  let* sradb := get_sra_object db in
  let* df := call (EvResolve M_gsm_to_srp gsm_ids detailed desc expand)
                  (src_resolve sradb M_gsm_to_srp gsm_ids detailed desc expand) in
  _print_save_df df saveto ;;
  call EvClose (src_close sradb).

(** [gsm_to_srr(gsm_ids, db, saveto, detailed, desc, expand)] *)
Definition gsm_to_srr (gsm_ids : pyids) (db saveto : option string)
    (detailed desc expand : bool) : M unit :=
  let* db := _check_sradb_file db in
  let* sradb := get_sra_object db in
  let* df := call (EvResolve M_gsm_to_srr gsm_ids detailed desc expand)
                  (src_resolve sradb M_gsm_to_srr gsm_ids detailed desc expand) in
  _print_save_df df saveto ;;
  call EvClose (src_close sradb).

(** [gsm_to_srs(gsm_ids, db, saveto, detailed, desc, expand)] *)
Definition gsm_to_srs (gsm_ids : pyids) (db saveto : option string)
    (detailed desc expand : bool) : M unit :=
  let* db := _check_sradb_file db in
  let* sradb := get_sra_object db in
  let* df := call (EvResolve M_gsm_to_srs gsm_ids detailed desc expand)
                  (src_resolve sradb M_gsm_to_srs gsm_ids detailed desc expand) in
  _print_save_df df saveto ;;
  call EvClose (src_close sradb).

(** [gsm_to_srx(gsm_ids, db, saveto, detailed, desc, expand)] *)
Definition gsm_to_srx (gsm_ids : pyids) (db saveto : option string)
    (detailed desc expand : bool) : M unit :=
  let* db := _check_sradb_file db in
  let* sradb := get_sra_object db in
  let* df := call (EvResolve M_gsm_to_srx gsm_ids detailed desc expand)
                  (src_resolve sradb M_gsm_to_srx gsm_ids detailed desc expand) in
  _print_save_df df saveto ;;
  call EvClose (src_close sradb).

(** [srp_to_gse(srp_id, db, saveto, detailed, desc, expand)] *)
Definition srp_to_gse (srp_id : pyids) (db saveto : option string)
    (detailed desc expand : bool) : M unit :=
  let* db := _check_sradb_file db in
  let* sradb := get_sra_object db in
  let* df := call (EvResolve M_srp_to_gse srp_id detailed desc expand)
                  (src_resolve sradb M_srp_to_gse srp_id detailed desc expand) in
  _print_save_df df saveto ;;
  call EvClose (src_close sradb).

(** [srp_to_srr(srp_id, db, saveto, detailed, desc, expand)] *)
Definition srp_to_srr (srp_id : pyids) (db saveto : option string)
    (detailed desc expand : bool) : M unit :=
  let* db := _check_sradb_file db in
  let* sradb := get_sra_object db in
  let* df := call (EvResolve M_srp_to_srr srp_id detailed desc expand)
                  (src_resolve sradb M_srp_to_srr srp_id detailed desc expand) in
  _print_save_df df saveto ;;
  call EvClose (src_close sradb).

(** [srp_to_srs(srp_id, db, saveto, detailed, desc, expand)] *)
Definition srp_to_srs (srp_id : pyids) (db saveto : option string)
    (detailed desc expand : bool) : M unit :=
  let* db := _check_sradb_file db in
  let* sradb := get_sra_object db in
  let* df := call (EvResolve M_srp_to_srs srp_id detailed desc expand)
                  (src_resolve sradb M_srp_to_srs srp_id detailed desc expand) in
  _print_save_df df saveto ;;
  call EvClose (src_close sradb).

(** [srp_to_srx(srp_id, db, saveto, detailed, desc, expand)] *)
Definition srp_to_srx (srp_id : pyids) (db saveto : option string)
    (detailed desc expand : bool) : M unit :=
  let* db := _check_sradb_file db in
  let* sradb := get_sra_object db in
  let* df := call (EvResolve M_srp_to_srx srp_id detailed desc expand)
                  (src_resolve sradb M_srp_to_srx srp_id detailed desc expand) in
  _print_save_df df saveto ;;
  call EvClose (src_close sradb).

(** [srr_to_gsm(srr_ids, db, saveto, detailed, desc, expand)] *)
Definition srr_to_gsm (srr_ids : pyids) (db saveto : option string)
    (detailed desc expand : bool) : M unit :=
  let* db := _check_sradb_file db in
  let* sradb := get_sra_object db in
  let* df := call (EvResolve M_srr_to_gsm srr_ids detailed desc expand)
                  (src_resolve sradb M_srr_to_gsm srr_ids detailed desc expand) in
  _print_save_df df saveto ;;
  call EvClose (src_close sradb).

(** [srr_to_srp(srr_ids, db, saveto, detailed, desc, expand)] *)
Definition srr_to_srp (srr_ids : pyids) (db saveto : option string)
    (detailed desc expand : bool) : M unit :=
  let* db := _check_sradb_file db in
  let* sradb := get_sra_object db in
  let* df := call (EvResolve M_srr_to_srp srr_ids detailed desc expand)
                  (src_resolve sradb M_srr_to_srp srr_ids detailed desc expand) in
  _print_save_df df saveto ;;
  call EvClose (src_close sradb).

(** [srr_to_srs(srr_ids, db, saveto, detailed, desc, expand)] *)
Definition srr_to_srs (srr_ids : pyids) (db saveto : option string)
    (detailed desc expand : bool) : M unit :=
  let* db := _check_sradb_file db in
  let* sradb := get_sra_object db in
  let* df := call (EvResolve M_srr_to_srs srr_ids detailed desc expand)
                  (src_resolve sradb M_srr_to_srs srr_ids detailed desc expand) in
  _print_save_df df saveto ;;
  call EvClose (src_close sradb).

(** [srr_to_srx(srr_ids, db, saveto, detailed, desc, expand)] *)
Definition srr_to_srx (srr_ids : pyids) (db saveto : option string)
    (detailed desc expand : bool) : M unit :=
  let* db := _check_sradb_file db in
  let* sradb := get_sra_object db in
  let* df := call (EvResolve M_srr_to_srx srr_ids detailed desc expand)
                  (src_resolve sradb M_srr_to_srx srr_ids detailed desc expand) in
  _print_save_df df saveto ;;
  call EvClose (src_close sradb).

(** [srs_to_gsm(srs_ids, db, saveto, detailed, desc, expand)] *)
Definition srs_to_gsm (srs_ids : pyids) (db saveto : option string)
    (detailed desc expand : bool) : M unit :=
  let* db := _check_sradb_file db in
  let* sradb := get_sra_object db in
  let* df := call (EvResolve M_srs_to_gsm srs_ids detailed desc expand)
                  (src_resolve sradb M_srs_to_gsm srs_ids detailed desc expand) in
  _print_save_df df saveto ;;
  call EvClose (src_close sradb).

(** [srs_to_srx(srs_ids, db, saveto, detailed, desc, expand)] *)
Definition srs_to_srx (srs_ids : pyids) (db saveto : option string)
    (detailed desc expand : bool) : M unit :=
  let* db := _check_sradb_file db in
  let* sradb := get_sra_object db in
  let* df := call (EvResolve M_srs_to_srx srs_ids detailed desc expand)
                  (src_resolve sradb M_srs_to_srx srs_ids detailed desc expand) in
  _print_save_df df saveto ;;
  call EvClose (src_close sradb).

(** [srx_to_srp(srx_ids, db, saveto, detailed, desc, expand)] *)
Definition srx_to_srp (srx_ids : pyids) (db saveto : option string)
    (detailed desc expand : bool) : M unit :=
  let* db := _check_sradb_file db in
  let* sradb := get_sra_object db in
  let* df := call (EvResolve M_srx_to_srp srx_ids detailed desc expand)
                  (src_resolve sradb M_srx_to_srp srx_ids detailed desc expand) in
  _print_save_df df saveto ;;
  call EvClose (src_close sradb).

(** [srx_to_srr(srx_ids, db, saveto, detailed, desc, expand)] *)
Definition srx_to_srr (srx_ids : pyids) (db saveto : option string)
    (detailed desc expand : bool) : M unit :=
  let* db := _check_sradb_file db in
  let* sradb := get_sra_object db in
  let* df := call (EvResolve M_srx_to_srr srx_ids detailed desc expand)
                  (src_resolve sradb M_srx_to_srr srx_ids detailed desc expand) in
  _print_save_df df saveto ;;
  call EvClose (src_close sradb).

(** [srx_to_srs(srx_ids, db, saveto, detailed, desc, expand)] *)
Definition srx_to_srs (srx_ids : pyids) (db saveto : option string)
    (detailed desc expand : bool) : M unit :=
  let* db := _check_sradb_file db in
  let* sradb := get_sra_object db in
  let* df := call (EvResolve M_srx_to_srs srx_ids detailed desc expand)
                  (src_resolve sradb M_srx_to_srs srx_ids detailed desc expand) in
  _print_save_df df saveto ;;
  call EvClose (src_close sradb).

End Cli.

(** ** The parsed command line

    [argparse.Namespace] as [parse_args] fills it: [command] is the
    [dest] of the subparsers, [func] the subparser's [set_defaults] entry,
    the remaining attributes are the options and positionals of the
    subparsers ([store_true] flags are booleans, absent options [None]). *)
Module Ns.

Record t := {
  command : option string;
  func : handler;
  out_dir : option string;
  overwrite : bool;
  keep_gz : bool;
  srp_id : pyids;
  db : option string;
  assay : bool;
  desc : bool;
  detailed : bool;
  expand : bool;
  saveto : option string;
  srx : option (list string);
  srp : option (list string);
  skip_confirmation : bool;
  use_wget : bool;
  col : string;
  verbosity : Z;
  max : Z;
  query : option (list string);
  accession : option string;
  organism : option (list string);
  layout : option string;
  mbases : option Z;
  publication_date : option string;
  platform : option (list string);
  selection : option (list string);
  source : option (list string);
  strategy : option (list string);
  title : option (list string);
  geo_query : option (list string);
  geo_dataset_type : option (list string);
  geo_entry_type : option (list string);
  gse_ids : list string;
  gsm_ids : list string;
  srr_ids : list string;
  srs_ids : list string;
  srx_ids : list string
}.

(** The same namespace with another [use_wget] attribute. *)
Definition with_use_wget (b : bool) (a : t) : t :=
  {| command := command a; func := func a; out_dir := out_dir a;
     overwrite := overwrite a; keep_gz := keep_gz a; srp_id := srp_id a;
     db := db a; assay := assay a; desc := desc a; detailed := detailed a;
     expand := expand a; saveto := saveto a; srx := srx a; srp := srp a;
     skip_confirmation := skip_confirmation a; use_wget := b; col := col a;
     verbosity := verbosity a; max := max a; query := query a;
     accession := accession a; organism := organism a; layout := layout a;
     mbases := mbases a; publication_date := publication_date a;
     platform := platform a; selection := selection a; source := source a;
     strategy := strategy a; title := title a; geo_query := geo_query a;
     geo_dataset_type := geo_dataset_type a;
     geo_entry_type := geo_entry_type a; gse_ids := gse_ids a;
     gsm_ids := gsm_ids a; srr_ids := srr_ids a; srs_ids := srs_ids a;
     srx_ids := srx_ids a |}.

(** The same namespace with another [func] attribute. *)
Definition with_func (h : handler) (a : t) : t :=
  {| command := command a; func := h; out_dir := out_dir a;
     overwrite := overwrite a; keep_gz := keep_gz a; srp_id := srp_id a;
     db := db a; assay := assay a; desc := desc a; detailed := detailed a;
     expand := expand a; saveto := saveto a; srx := srx a; srp := srp a;
     skip_confirmation := skip_confirmation a; use_wget := use_wget a;
     col := col a;
     verbosity := verbosity a; max := max a; query := query a;
     accession := accession a; organism := organism a; layout := layout a;
     mbases := mbases a; publication_date := publication_date a;
     platform := platform a; selection := selection a; source := source a;
     strategy := strategy a; title := title a; geo_query := geo_query a;
     geo_dataset_type := geo_dataset_type a;
     geo_entry_type := geo_entry_type a; gse_ids := gse_ids a;
     gsm_ids := gsm_ids a; srr_ids := srr_ids a; srs_ids := srs_ids a;
     srx_ids := srx_ids a |}.

(** [vars(args)] for a namespace produced by the [search] subparser: the
    attribute dictionary, keyed by attribute name. *)
Definition vars (a : t) : gmap string pyval :=
  <["command" := of_opt_str (command a)]>
  (<["func" := VFunc (func a)]>
  (<["saveto" := of_opt_str (saveto a)]>
  (<["db" := of_opt_str (db a)]>
  (<["verbosity" := VInt (verbosity a)]>
  (<["max" := VInt (max a)]>
  (<["query" := of_opt_list (query a)]>
  (<["accession" := of_opt_str (accession a)]>
  (<["organism" := of_opt_list (organism a)]>
  (<["layout" := of_opt_str (layout a)]>
  (<["mbases" := of_opt_int (mbases a)]>
  (<["publication_date" := of_opt_str (publication_date a)]>
  (<["platform" := of_opt_list (platform a)]>
  (<["selection" := of_opt_list (selection a)]>
  (<["source" := of_opt_list (source a)]>
  (<["strategy" := of_opt_list (strategy a)]>
  (<["title" := of_opt_list (title a)]>
  (<["geo_query" := of_opt_list (geo_query a)]>
  (<["geo_dataset_type" := of_opt_list (geo_dataset_type a)]>
  (<["geo_entry_type" := of_opt_list (geo_entry_type a)]> ∅))))))))))))))))))).

End Ns.

(** The [set_defaults(func=...)] entry of each subparser, in the order of
    the [add_parser] calls of [parse_args]. *)
Definition subparser_func (name : string) : option handler :=
  if String.eqb name "metadb" then Some H_metadb
  else if String.eqb name "metadata" then Some H_metadata
  else if String.eqb name "download" then Some H_download
  else if String.eqb name "search" then Some H_search
  else if String.eqb name "gse-to-gsm" then Some (H_conv M_gse_to_gsm)
  else if String.eqb name "gse-to-srp" then Some (H_conv M_gse_to_gsm)
  else if String.eqb name "gsm-to-gse" then Some (H_conv M_gsm_to_gse)
  else if String.eqb name "gsm-to-srp" then Some (H_conv M_gsm_to_srp)
  else if String.eqb name "gsm-to-srr" then Some (H_conv M_gsm_to_srr)
  else if String.eqb name "gsm-to-srs" then Some (H_conv M_gsm_to_srs)
  else if String.eqb name "gsm-to-srx" then Some (H_conv M_gsm_to_srx)
  else if String.eqb name "srp-to-gse" then Some (H_conv M_srp_to_gse)
  else if String.eqb name "srp-to-srr" then Some (H_conv M_srp_to_srr)
  else if String.eqb name "srp-to-srs" then Some (H_conv M_srp_to_srs)
  else if String.eqb name "srp-to-srx" then Some (H_conv M_srp_to_srx)
  else if String.eqb name "srr-to-gsm" then Some (H_conv M_srr_to_gsm)
  else if String.eqb name "srr-to-srp" then Some (H_conv M_srr_to_srp)
  else if String.eqb name "srr-to-srs" then Some (H_conv M_srr_to_srs)
  else if String.eqb name "srr-to-srx" then Some (H_conv M_srr_to_srx)
  else if String.eqb name "srs-to-gsm" then Some (H_conv M_srs_to_gsm)
  else if String.eqb name "srs-to-srx" then Some (H_conv M_srs_to_srx)
  else if String.eqb name "srx-to-srp" then Some (H_conv M_srx_to_srp)
  else if String.eqb name "srx-to-srr" then Some (H_conv M_srx_to_srr)
  else if String.eqb name "srx-to-srs" then Some (H_conv M_srx_to_srs)
  else None.

(** ** Dispatch

    The tail of [parse_args]: the [if]/[elif] chain on [args.command].
    [download] is called with six positional arguments, so its seventh
    parameter takes its default [use_wget=True].  In the [search] branch
    [flags] is the attribute dictionary; each [flags.pop(k)] yields the
    attribute [k] and removes the key. *)
Section Dispatch.

Variable env : Env.

Definition dispatch (args : Ns.t) : M unit :=
  if bool_decide (Ns.command args = Some "metadb") then
    metadb env (Ns.out_dir args) (Ns.overwrite args) (Ns.keep_gz args)
  else if bool_decide (Ns.command args = Some "metadata") then
    metadata env (Ns.srp_id args) (Ns.db args) (Ns.assay args)
      (Ns.desc args) (Ns.detailed args) (Ns.expand args) (Ns.saveto args)
  else if bool_decide (Ns.command args = Some "download") then
    download env (Ns.out_dir args) (Ns.db args) (Ns.srx args) (Ns.srp args)
      (Ns.skip_confirmation args) (Ns.col args) true
  else if bool_decide (Ns.command args = Some "search") then
    let flags := Ns.vars args in
    search env (Ns.saveto args) (Ns.db args) (Ns.verbosity args)
      (Ns.max args)
           (delete "max" (delete "verbosity" (delete "db"
             (delete "saveto" flags))))
  else if bool_decide (Ns.command args = Some "gse-to-gsm") then
    gse_to_gsm env (PyList (Ns.gse_ids args)) (Ns.db args) (Ns.saveto args)
      (Ns.detailed args) (Ns.desc args) (Ns.expand args)
  else if bool_decide (Ns.command args = Some "gse-to-srp") then
    gse_to_srp env (PyList (Ns.gse_ids args)) (Ns.db args) (Ns.saveto args)
      (Ns.detailed args) (Ns.desc args) (Ns.expand args)
  else if bool_decide (Ns.command args = Some "gsm-to-gse") then
    gsm_to_gse env (PyList (Ns.gsm_ids args)) (Ns.db args) (Ns.saveto args)
      (Ns.detailed args) (Ns.desc args) (Ns.expand args)
  else if bool_decide (Ns.command args = Some "gsm-to-srp") then
    gsm_to_srp env (PyList (Ns.gsm_ids args)) (Ns.db args) (Ns.saveto args)
      (Ns.detailed args) (Ns.desc args) (Ns.expand args)
  else if bool_decide (Ns.command args = Some "gsm-to-srr") then
    gsm_to_srr env (PyList (Ns.gsm_ids args)) (Ns.db args) (Ns.saveto args)
      (Ns.detailed args) (Ns.desc args) (Ns.expand args)
  else if bool_decide (Ns.command args = Some "gsm-to-srs") then
    gsm_to_srs env (PyList (Ns.gsm_ids args)) (Ns.db args) (Ns.saveto args)
      (Ns.detailed args) (Ns.desc args) (Ns.expand args)
  else if bool_decide (Ns.command args = Some "gsm-to-srx") then
    gsm_to_srx env (PyList (Ns.gsm_ids args)) (Ns.db args) (Ns.saveto args)
      (Ns.detailed args) (Ns.desc args) (Ns.expand args)
  else if bool_decide (Ns.command args = Some "srp-to-gse") then
    srp_to_gse env (Ns.srp_id args) (Ns.db args) (Ns.saveto args)
      (Ns.detailed args) (Ns.desc args) (Ns.expand args)
  else if bool_decide (Ns.command args = Some "srp-to-srr") then
    srp_to_srr env (Ns.srp_id args) (Ns.db args) (Ns.saveto args)
      (Ns.detailed args) (Ns.desc args) (Ns.expand args)
  else if bool_decide (Ns.command args = Some "srp-to-srs") then
    srp_to_srs env (Ns.srp_id args) (Ns.db args) (Ns.saveto args)
      (Ns.detailed args) (Ns.desc args) (Ns.expand args)
  else if bool_decide (Ns.command args = Some "srp-to-srx") then
    srp_to_srx env (Ns.srp_id args) (Ns.db args) (Ns.saveto args)
      (Ns.detailed args) (Ns.desc args) (Ns.expand args)
  else if bool_decide (Ns.command args = Some "srr-to-gsm") then
    srr_to_gsm env (PyList (Ns.srr_ids args)) (Ns.db args) (Ns.saveto args)
      (Ns.detailed args) (Ns.desc args) (Ns.expand args)
  else if bool_decide (Ns.command args = Some "srr-to-srp") then
    srr_to_srp env (PyList (Ns.srr_ids args)) (Ns.db args) (Ns.saveto args)
      (Ns.detailed args) (Ns.desc args) (Ns.expand args)
  else if bool_decide (Ns.command args = Some "srr-to-srs") then
    srr_to_srs env (PyList (Ns.srr_ids args)) (Ns.db args) (Ns.saveto args)
      (Ns.detailed args) (Ns.desc args) (Ns.expand args)
  else if bool_decide (Ns.command args = Some "srr-to-srx") then
    srr_to_srx env (PyList (Ns.srr_ids args)) (Ns.db args) (Ns.saveto args)
      (Ns.detailed args) (Ns.desc args) (Ns.expand args)
  else if bool_decide (Ns.command args = Some "srs-to-gsm") then
    srs_to_gsm env (PyList (Ns.srs_ids args)) (Ns.db args) (Ns.saveto args)
      (Ns.detailed args) (Ns.desc args) (Ns.expand args)
  else if bool_decide (Ns.command args = Some "srs-to-srx") then
    srs_to_srx env (PyList (Ns.srs_ids args)) (Ns.db args) (Ns.saveto args)
      (Ns.detailed args) (Ns.desc args) (Ns.expand args)
  else if bool_decide (Ns.command args = Some "srx-to-srp") then
    srx_to_srp env (PyList (Ns.srx_ids args)) (Ns.db args) (Ns.saveto args)
      (Ns.detailed args) (Ns.desc args) (Ns.expand args)
  else if bool_decide (Ns.command args = Some "srx-to-srr") then
    srx_to_srr env (PyList (Ns.srx_ids args)) (Ns.db args) (Ns.saveto args)
      (Ns.detailed args) (Ns.desc args) (Ns.expand args)
  else if bool_decide (Ns.command args = Some "srx-to-srs") then
    srx_to_srs env (PyList (Ns.srx_ids args)) (Ns.db args) (Ns.saveto args)
      (Ns.detailed args) (Ns.desc args) (Ns.expand args)
  else ret tt.

End Dispatch.

(** ** Concrete collaborators

    A small closed world on which the definitions above evaluate: a table
    of one run, a snapshot file at [/data/SRAmetadb.sqlite] only, a working
    directory ([/home/user] unless stated), a rendering that separates
    the cells of a row by two blanks (as [DataFrame.to_string] pads its
    columns with blanks), sources
    that answer every call with the table, and search classes that refuse
    an all-[None] filter set with [MissingQueryException]. *)
Module Sample.

Definition df : DataFrame :=
  {| columns := ["run_accession"; "study_accession"];
     rows := [["SRR000001"; "SRP000001"]] |}.

Definition no_rows : DataFrame :=
  {| columns := ["run_accession"; "study_accession"]; rows := [] |}.

Definition source (k : source_kind) : SraSource :=
  {| src_kind := k;
     src_resolve := fun _ _ _ _ _ => Return df;
     src_sra_metadata := fun _ _ _ _ _ => Return df;
     src_download := fun _ _ _ _ _ _ => Return tt;
     src_close := Return tt |}.

Definition is_none (v : pyval) : bool :=
  match v with VNone => true | _ => false end.

Definition instance : SearchInstance :=
  {| inst_search := Return tt; inst_get_df := Return df |}.

Definition env_at (cwd : string) : Env :=
  {| getcwd := cwd;
     isfile := fun p => String.eqb p "/data/SRAmetadb.sqlite";
     stdin := ["run_accession  study_accession" +:+ NL;
               "SRR000001      SRP000001" +:+ NL];
     to_string := fun d => join NL (map (join "  ") (rows d));
     to_csv := fun _ _ _ => Return tt;
     read_csv := fun _ => Return df;
     new_source := fun k => Return (source k);
     new_search := fun _ _ _ args =>
       if forallb is_none args
       then Raise (MissingQueryException "No valid query or parameter")
       else Return instance;
     download_sradb_file := fun _ _ _ => Return tt |}.

Definition env : Env := env_at "/home/user".

(** The namespace of [pysradb <command>] with the options [--db], [--srp],
    [--skip-confirmation] and [--use-wget] as given and every other option
    left out. *)
Definition args_with (cmd : string) (db : option string)
    (srp : option (list string)) (skip_confirmation use_wget : bool) : Ns.t :=
  {| Ns.command := Some cmd;
     Ns.func := default H_metadb (subparser_func cmd);
     Ns.out_dir := None; Ns.overwrite := false; Ns.keep_gz := false;
     Ns.srp_id := PyOne "SRP000001"; Ns.db := db;
     Ns.assay := false; Ns.desc := false; Ns.detailed := false;
     Ns.expand := false; Ns.saveto := None; Ns.srx := None; Ns.srp := srp;
     Ns.skip_confirmation := skip_confirmation; Ns.use_wget := use_wget;
     Ns.col := "sra_url"; Ns.verbosity := 2; Ns.max := 20;
     Ns.query := None; Ns.accession := None; Ns.organism := None;
     Ns.layout := None; Ns.mbases := None; Ns.publication_date := None;
     Ns.platform := None; Ns.selection := None; Ns.source := None;
     Ns.strategy := None; Ns.title := None; Ns.geo_query := None;
     Ns.geo_dataset_type := None; Ns.geo_entry_type := None;
     Ns.gse_ids := ["GSE000001"]; Ns.gsm_ids := ["GSM000001"];
     Ns.srr_ids := ["SRR000001"]; Ns.srs_ids := ["SRS000001"];
     Ns.srx_ids := ["SRX000001"] |}.

(** The namespace of [pysradb <command>] with every option left out. *)
Definition args (cmd : string) : Ns.t := args_with cmd None None false false.

End Sample.

(** ** Definitions used by the statements *)

(** The text handed to [print] for a table with rows. *)
Definition stdout_text (env : Env) (df : DataFrame) : string :=
  join linesep
    (join TAB (columns df)
     :: map lstrip (split_lines (lstrip (to_string env df)))).

(** "No path is given": [saveto] is [None] or the empty string, the two
    values for which [if saveto:] fails. *)
Definition no_path (saveto : option string) : Prop :=
  saveto = None \/ saveto = Some "".

(** The table as tab-separated text: the column names and then every
    row, the cells of a line joined by tabs, the lines joined by line
    feeds. *)
Definition tsv_text (df : DataFrame) : string :=
  join linesep (map (join TAB) (columns df :: rows df)).

(** The separator rule as the specification words it: the two file cases,
    and the table written tab-separated on standard output whenever no
    path is given. *)
Definition separator_rule (env : Env) (df : DataFrame) (saveto : option string) : Prop :=
  (forall path, saveto = Some path -> path <> "" ->
     endswith (lower path) ".csv" = true ->
     trace (_print_save_df env df saveto) = [EvToCsv df path Comma]) /\
  (forall path, saveto = Some path -> path <> "" ->
     endswith (lower path) ".csv" = false ->
     trace (_print_save_df env df saveto) = [EvToCsv df path Tab]) /\
  (no_path saveto ->
     trace (_print_save_df env df saveto) = [EvPrint (tsv_text df)]).

(** ** The conversion commands as a family

    The twenty conversion handlers are separate functions in the source.
    The three tables below index them by the contract method they call:
    the subcommand name tested by [dispatch], the handler function, and the
    namespace attribute [dispatch] passes as first argument. *)

Definition command_name (c : conversion) : string :=
  match c with
  | M_gse_to_gsm => "gse-to-gsm"
  | M_gse_to_srp => "gse-to-srp"
  | M_gsm_to_gse => "gsm-to-gse"
  | M_gsm_to_srp => "gsm-to-srp"
  | M_gsm_to_srr => "gsm-to-srr"
  | M_gsm_to_srs => "gsm-to-srs"
  | M_gsm_to_srx => "gsm-to-srx"
  | M_srp_to_gse => "srp-to-gse"
  | M_srp_to_srr => "srp-to-srr"
  | M_srp_to_srs => "srp-to-srs"
  | M_srp_to_srx => "srp-to-srx"
  | M_srr_to_gsm => "srr-to-gsm"
  | M_srr_to_srp => "srr-to-srp"
  | M_srr_to_srs => "srr-to-srs"
  | M_srr_to_srx => "srr-to-srx"
  | M_srs_to_gsm => "srs-to-gsm"
  | M_srs_to_srx => "srs-to-srx"
  | M_srx_to_srp => "srx-to-srp"
  | M_srx_to_srr => "srx-to-srr"
  | M_srx_to_srs => "srx-to-srs"
  end.

Definition conv_handler (c : conversion) :
    Env -> pyids -> option string -> option string ->
    bool -> bool -> bool -> M unit :=
  match c with
  | M_gse_to_gsm => gse_to_gsm
  | M_gse_to_srp => gse_to_srp
  | M_gsm_to_gse => gsm_to_gse
  | M_gsm_to_srp => gsm_to_srp
  | M_gsm_to_srr => gsm_to_srr
  | M_gsm_to_srs => gsm_to_srs
  | M_gsm_to_srx => gsm_to_srx
  | M_srp_to_gse => srp_to_gse
  | M_srp_to_srr => srp_to_srr
  | M_srp_to_srs => srp_to_srs
  | M_srp_to_srx => srp_to_srx
  | M_srr_to_gsm => srr_to_gsm
  | M_srr_to_srp => srr_to_srp
  | M_srr_to_srs => srr_to_srs
  | M_srr_to_srx => srr_to_srx
  | M_srs_to_gsm => srs_to_gsm
  | M_srs_to_srx => srs_to_srx
  | M_srx_to_srp => srx_to_srp
  | M_srx_to_srr => srx_to_srr
  | M_srx_to_srs => srx_to_srs
  end.

Definition conv_ids (args : Ns.t) (c : conversion) : pyids :=
  match c with
  | M_gse_to_gsm => PyList (Ns.gse_ids args)
  | M_gse_to_srp => PyList (Ns.gse_ids args)
  | M_gsm_to_gse => PyList (Ns.gsm_ids args)
  | M_gsm_to_srp => PyList (Ns.gsm_ids args)
  | M_gsm_to_srr => PyList (Ns.gsm_ids args)
  | M_gsm_to_srs => PyList (Ns.gsm_ids args)
  | M_gsm_to_srx => PyList (Ns.gsm_ids args)
  | M_srp_to_gse => Ns.srp_id args
  | M_srp_to_srr => Ns.srp_id args
  | M_srp_to_srs => Ns.srp_id args
  | M_srp_to_srx => Ns.srp_id args
  | M_srr_to_gsm => PyList (Ns.srr_ids args)
  | M_srr_to_srp => PyList (Ns.srr_ids args)
  | M_srr_to_srs => PyList (Ns.srr_ids args)
  | M_srr_to_srx => PyList (Ns.srr_ids args)
  | M_srs_to_gsm => PyList (Ns.srs_ids args)
  | M_srs_to_srx => PyList (Ns.srs_ids args)
  | M_srx_to_srp => PyList (Ns.srx_ids args)
  | M_srx_to_srr => PyList (Ns.srx_ids args)
  | M_srx_to_srs => PyList (Ns.srx_ids args)
  end.

(** What every conversion handler does once it holds a source object. *)
Definition via_contract (env : Env) (c : conversion) (sradb : SraSource)
    (ids : pyids) (saveto : option string) (detailed desc expand : bool) : M unit :=
  let* df := call (EvResolve c ids detailed desc expand)
                  (src_resolve sradb c ids detailed desc expand) in
  _print_save_df env df saveto ;;
  call EvClose (src_close sradb).

(** The commands that open a metadata source for a lookup: [metadata] and
    the twenty conversions. *)
Definition snapshot_command (args : Ns.t) : Prop :=
  Ns.command args = Some "metadata" \/
  exists c, Ns.command args = Some (command_name c).

(** The file probed when no [--db] is given, and the class that results. *)
Definition default_snapshot (env : Env) : string :=
  os_path_join (getcwd env) "SRAmetadb.sqlite".

Definition default_source (env : Env) : source_kind :=
  if isfile env (default_snapshot env)
  then SRAdb (default_snapshot env)
  else SRAweb.

(** [download_sradb_file] was called. *)
Definition is_snapshot_download (ev : event) : Prop :=
  match ev with
  | EvDownloadSradbFile _ _ _ => True
  | _ => False
  end.

(** The [protocol] keyword of a [download] call on the source, when the
    call site passes one. *)
Definition protocol_of (ev : event) : option string :=
  match ev with
  | EvDownload _ _ _ _ protocol _ => protocol
  | _ => None
  end.

(** The [skip_confirmation] keyword of a [download] call on the source. *)
Definition skip_confirmation_of (ev : event) : option bool :=
  match ev with
  | EvDownload _ _ _ skip _ _ => Some skip
  | _ => None
  end.

(** Every [download] call of a trace carries [skip_confirmation = b]. *)
Definition downloads_skip (b : bool) (t : list event) : Prop :=
  Forall (fun ev => forall b', skip_confirmation_of ev = Some b' -> b' = b) t.

(** The confirmation rule as the specification words it: whatever the
    branch, the source is told to skip the confirmation exactly when the
    user passed [--skip-confirmation]. *)
Definition confirmation_rule (env : Env) (args : Ns.t) : Prop :=
  downloads_skip (Ns.skip_confirmation args) (trace (dispatch env args)).

(** The filter fields as the specification groups them: eleven common
    ones and three for GEO only. *)
Definition common_fields : list string :=
  ["query"; "accession"; "organism"; "layout"; "mbases"; "publication_date";
   "platform"; "selection"; "source"; "strategy"; "title"].

Definition geo_only_fields : list string :=
  ["geo_query"; "geo_dataset_type"; "geo_entry_type"].

(** The backend the [db] argument stands for. *)
Definition backend_of (db : option string) : search_backend :=
  if bool_decide (db = Some "ena") then EnaSearch
  else if bool_decide (db = Some "geo") then GeoSearch
  else SraSearch.

Definition fields_of (b : search_backend) : list string :=
  match b with
  | GeoSearch => common_fields ++ geo_only_fields
  | EnaSearch | SraSearch => common_fields
  end.

(** The values stored under [keys], when every key is present. *)
Fixpoint lookup_all (fields : gmap string pyval) (keys : list string)
    : option (list pyval) :=
  match keys with
  | [] => Some []
  | k :: r =>
      match fields !! k, lookup_all fields r with
      | Some v, Some vs => Some (v :: vs)
      | _, _ => None
      end
  end.

(** The dictionary [dispatch] hands to [search]. *)
Definition search_flags (args : Ns.t) : gmap string pyval :=
  delete "max" (delete "verbosity" (delete "db"
    (delete "saveto" (Ns.vars args)))).

(** The filter attributes of a namespace, in the order of the constructor
    parameters. *)
Definition common_values (args : Ns.t) : list pyval :=
  [of_opt_list (Ns.query args); of_opt_str (Ns.accession args);
   of_opt_list (Ns.organism args); of_opt_str (Ns.layout args);
   of_opt_int (Ns.mbases args); of_opt_str (Ns.publication_date args);
   of_opt_list (Ns.platform args); of_opt_list (Ns.selection args);
   of_opt_list (Ns.source args); of_opt_list (Ns.strategy args);
   of_opt_list (Ns.title args)].

Definition geo_only_values (args : Ns.t) : list pyval :=
  [of_opt_list (Ns.geo_query args); of_opt_list (Ns.geo_dataset_type args);
   of_opt_list (Ns.geo_entry_type args)].

Definition values_of (args : Ns.t) (b : search_backend) : list pyval :=
  match b with
  | GeoSearch => common_values args ++ geo_only_values args
  | EnaSearch | SraSearch => common_values args
  end.

(** The two exception classes named by the [except] clause of [search]. *)
Definition is_query_error (e : exn) : Prop :=
  match e with
  | MissingQueryException _ | IncorrectFieldException _ => True
  | _ => False
  end.

(** A search class was instantiated. *)
Definition new_search_of (ev : event)
    : option (search_backend * list pyval) :=
  match ev with
  | EvNewSearch b _ _ args => Some (b, args)
  | _ => None
  end.

(** What [search] makes of an exception raised after the external calls
    [calls]: the two query errors are printed and swallowed, anything else
    propagates. *)
Definition after_exception (calls : list event) (e : exn) : M unit :=
  match e with
  | MissingQueryException _ | IncorrectFieldException _ =>
      (calls ++ [EvPrint (str_exn e)], Return tt)
  | _ => (calls, Raise e)
  end.

(** The course of [search] in terms of what the collaborators answer, for
    constructor arguments [vals]. *)
Definition search_course (env : Env) (saveto : option string)
    (b : search_backend) (verbosity return_max : Z) (vals : list pyval)
    : M unit :=
  let new := EvNewSearch b verbosity return_max vals in
  match new_search env b verbosity return_max vals with
  | Raise e => after_exception [new] e
  | Return instance =>
      match inst_search instance with
      | Raise e => after_exception [new; EvSearch] e
      | Return _ =>
          let '(t, r) :=
            (let* df := call EvGetDf (inst_get_df instance) in
             _print_save_df env df saveto) in
          (new :: EvSearch :: t, r)
      end
  end.

(** ** Definitions used by the further properties *)

(** A world in which things go wrong: the contract refuses an empty
    accession list, the study [SRP404] has no metadata, a table for the
    study [SRP500] cannot be downloaded, and nothing can be written under
    [/readonly/]. *)
Module Faulty.

Definition df500 : DataFrame :=
  {| columns := ["run_accession"; "study_accession"];
     rows := [["SRR000500"; "SRP500"]] |}.

Definition source (k : source_kind) : SraSource :=
  {| src_kind := k;
     src_resolve := fun _ ids _ _ _ =>
       match ids with
       | PyList [] => Raise (OtherException "no accession")
       | _ => Return Sample.df
       end;
     src_sra_metadata := fun ids _ _ _ _ =>
       match ids with
       | PyOne s =>
           if String.eqb s "SRP404" then Raise (OtherException "not found")
           else if String.eqb s "SRP500" then Return df500
           else Return Sample.df
       | PyList _ => Return Sample.df
       end;
     src_download := fun d _ _ _ _ _ =>
       if bool_decide (rows d = rows df500)
       then Raise (OtherException "transfer failed")
       else Return tt;
     src_close := Return tt |}.

Definition env : Env :=
  {| getcwd := "/home/user";
     isfile := fun p => String.eqb p "/data/SRAmetadb.sqlite"
                        || String.eqb p "web";
     stdin := [];
     to_string := to_string Sample.env;
     to_csv := fun _ path _ =>
       if startswith path "/readonly/"
       then Raise (OtherException "Permission denied")
       else Return tt;
     read_csv := fun _ => Return Sample.df;
     new_source := fun k => Return (source k);
     new_search := fun _ _ _ _ =>
       Return {| inst_search := Raise (OtherException "HTTP 500");
                 inst_get_df := Return Sample.df |};
     download_sradb_file := fun _ _ _ => Return tt |}.

End Faulty.

(** The directory [download] writes to. *)
Definition download_out_dir (env : Env) (out_dir : option string) : string :=
  match out_dir with
  | None => os_path_join (getcwd env) "pysradb_downloads"
  | Some d => d
  end.

(** The two calls the [--srp] loop makes for the study [srp_x] when its
    metadata table is [md]. *)
Definition srp_calls (out_dir : string) (srx : option (list string))
    (skip_confirmation : bool) (md : string -> DataFrame) (srp_x : string)
    : list event :=
  [EvSraMetadata (PyOne srp_x) None (Some true) None None;
   EvDownload (md srp_x) out_dir srx skip_confirmation None None].

(** The same world with other lines on standard input. *)
Definition with_stdin (lines : list string) (env : Env) : Env :=
  {| getcwd := getcwd env; isfile := isfile env; stdin := lines;
     to_string := to_string env; to_csv := to_csv env;
     read_csv := read_csv env; new_source := new_source env;
     new_search := new_search env;
     download_sradb_file := download_sradb_file env |}.

(** The [out_dir], [filter_by_srx] and [url_col] arguments of a [download]
    call on the source. *)
Definition download_target_of (ev : event)
    : option (string * option (list string) * option string) :=
  match ev with
  | EvDownload _ out_dir srx _ _ url_col => Some (out_dir, srx, url_col)
  | _ => None
  end.

Definition is_read_csv (ev : event) : Prop :=
  match ev with EvReadCsv _ => True | _ => False end.

(** A tidy line: it neither begins nor ends with whitespace, no two
    whitespace characters are adjacent, and every whitespace character is
    one of the separators [sp].  [after_space] tells whether the previous
    character was whitespace (or the line start). *)
Fixpoint tidy_from (sp : ascii -> bool) (after_space : bool) (s : string)
    : bool :=
  match s with
  | EmptyString => negb after_space
  | String c r =>
      if isspace c
      then sp c && negb after_space && tidy_from sp true r
      else tidy_from sp false r
  end.

Definition is_tab_or_blank (c : ascii) : bool :=
  is_tab c || Ascii.eqb c " ".

(** Clean tab-separated text: the only whitespace is single tabs between
    fields. *)
Definition clean (s : string) : bool := tidy_from is_tab true s.

(** The same, with single blanks allowed inside fields. *)
Definition tidy (s : string) : bool := tidy_from is_tab_or_blank true s.

(** Every whitespace character of [s] is a tab standing alone.
    [after_space] as above. *)
Fixpoint single_tabs_from (after_space : bool) (s : string) : bool :=
  match s with
  | EmptyString => true
  | String c r =>
      if isspace c
      then is_tab c && negb after_space && single_tabs_from true r
      else single_tabs_from false r
  end.

(** [s] begins with a whitespace character. *)
Definition starts_with_space (s : string) : bool :=
  match s with
  | EmptyString => false
  | String c _ => isspace c
  end.

(** The first key of [keys] that [fields] lacks. *)
Fixpoint first_missing (fields : gmap string pyval) (keys : list string)
    : option string :=
  match keys with
  | [] => None
  | k :: r =>
      match fields !! k with
      | Some _ => first_missing fields r
      | None => Some k
      end
  end.

(** The subcommand names [parse_args] registers. *)
Definition registered (name : string) : Prop :=
  subparser_func name <> None.

(** The non-whitespace characters of [s], in order. *)
Fixpoint nonspace (s : string) : string :=
  match s with
  | EmptyString => EmptyString
  | String c r => if isspace c then nonspace r else String c (nonspace r)
  end.

(** All lines of a text, one after the other. *)
Definition concat_lines (lines : list string) : string :=
  fold_right (fun line text => line +:+ text) "" lines.

(** Every class of [cls] only accepts whitespace. *)
Definition space_classes (cls : list (ascii -> bool)) : Prop :=
  Forall (fun p => forall c, p c = true -> isspace c = true) cls.

(** A line as iteration over a text stream yields it: with its line feed. *)
Definition with_newline (s : string) : string := s +:+ NL.

(** The computations [dispatch] can stand for: nothing at all, or one of
    the handlers applied to the attributes of the namespace. *)
Inductive dispatched (env : Env) (args : Ns.t) : M unit -> Prop :=
| D_none :
    (forall name, registered name -> Ns.command args <> Some name) ->
    dispatched env args (ret tt)
| D_metadb :
    Ns.command args = Some "metadb" ->
    dispatched env args
      (metadb env (Ns.out_dir args) (Ns.overwrite args) (Ns.keep_gz args))
| D_metadata :
    Ns.command args = Some "metadata" ->
    dispatched env args
      (metadata env (Ns.srp_id args) (Ns.db args) (Ns.assay args)
         (Ns.desc args) (Ns.detailed args) (Ns.expand args) (Ns.saveto args))
| D_download :
    Ns.command args = Some "download" ->
    dispatched env args
      (download env (Ns.out_dir args) (Ns.db args) (Ns.srx args)
         (Ns.srp args) (Ns.skip_confirmation args) (Ns.col args) true)
| D_search :
    Ns.command args = Some "search" ->
    dispatched env args
      (search env (Ns.saveto args) (Ns.db args) (Ns.verbosity args)
         (Ns.max args) (search_flags args))
| D_conv (c : conversion) :
    Ns.command args = Some (command_name c) ->
    dispatched env args
      (conv_handler c env (conv_ids args c) (Ns.db args) (Ns.saveto args)
         (Ns.detailed args) (Ns.desc args) (Ns.expand args)).

(** A world in which a search object accepts the query and fails late:
    [get_df()] raises [MissingQueryException]. *)
Module LateError.

Definition instance : SearchInstance :=
  {| inst_search := Return tt;
     inst_get_df :=
       Raise (MissingQueryException "No valid query or parameter") |}.

Definition env : Env :=
  {| getcwd := getcwd Sample.env; isfile := isfile Sample.env;
     stdin := []; to_string := to_string Sample.env;
     to_csv := to_csv Sample.env; read_csv := read_csv Sample.env;
     new_source := new_source Sample.env;
     new_search := fun _ _ _ _ => Return instance;
     download_sradb_file := download_sradb_file Sample.env |}.

End LateError.

(** One of the calls [search] makes on the selected class raises [e]: the
    constructor, [search()], or [get_df()]. *)
Definition backend_raises (env : Env) (b : search_backend)
    (verbosity return_max : Z) (vals : list pyval) (e : exn) : Prop :=
  new_search env b verbosity return_max vals = Raise e \/
  exists instance,
    new_search env b verbosity return_max vals = Return instance /\
    (inst_search instance = Raise e \/
     (inst_search instance = Return tt /\ inst_get_df instance = Raise e)).

(** The query-error rule as the specification words it: whenever the
    selected class raises one of the two query errors, [search] prints the
    message and returns normally. *)
Definition query_error_rule (env : Env) (saveto db : option string)
    (verbosity return_max : Z) (fields : gmap string pyval) : Prop :=
  forall vals e,
    lookup_all fields (fields_of (backend_of db)) = Some vals ->
    is_query_error e ->
    backend_raises env (backend_of db) verbosity return_max vals e ->
    result (search env saveto db verbosity return_max fields) = Return tt /\
    In (EvPrint (str_exn e))
       (trace (search env saveto db verbosity return_max fields)).

(** * Theorems *)

(** ** Basic facts on strings and on the monad *)

Lemma append_cons (x : ascii) (a b : string) :
  String x a +:+ b = String x (a +:+ b).
Proof. reflexivity. Qed.

Lemma append_assoc (a b c : string) : (a +:+ b) +:+ c = a +:+ (b +:+ c).
Proof.
  induction a as [|x a IH]; [reflexivity|].
  rewrite !append_cons. now f_equal.
Qed.

Lemma length_append (a b : string) :
  String.length (a +:+ b) = (String.length a + String.length b)%nat.
Proof.
  induction a as [|x a IH]; [reflexivity|].
  rewrite append_cons. simpl. now f_equal.
Qed.

Lemma split_lines_cons (s : string) :
  exists h t, split_lines s = h :: t.
Proof.
  induction s as [|c s (h & t & IH)]; simpl.
  - now exists "", [].
  - destruct (Ascii.eqb c newline); [now exists "", (split_lines s)|].
    rewrite IH. now exists (String c h), t.
Qed.

(** The [for line in to_print_split: to_print.append(line.lstrip())] loop
    is a [map] appended to the initial list. *)
Lemma fold_append_map {A B} (f : A -> B) (l : list A) (init : list B) :
  fold_left (fun acc x => acc ++ [f x]) l init = init ++ map f l.
Proof.
  revert init. induction l as [|x l IH]; intros init; simpl.
  - now rewrite app_nil_r.
  - rewrite IH, <- app_assoc. reflexivity.
Qed.

Lemma join_cons_cons (sp x y : string) (l : list string) :
  join sp (x :: y :: l) = x +:+ sp +:+ join sp (y :: l).
Proof. reflexivity. Qed.

Lemma bind_ret {A B} (a : A) (k : A -> M B) : bind (ret a) k = k a.
Proof. unfold bind, ret. destruct (k a) as [t r]. reflexivity. Qed.

Lemma bind_call_return {A B} (ev : event) (a : A) (k : A -> M B) :
  bind (call ev (Return a)) k = (ev :: trace (k a), result (k a)).
Proof. unfold bind, call, trace, result. destruct (k a). reflexivity. Qed.

Lemma trace_bind_return {A B} (m : M A) (k : A -> M B) (a : A) :
  result m = Return a -> trace (bind m k) = trace m ++ trace (k a).
Proof.
  destruct m as [t r]; simpl. intros ->. unfold bind, trace.
  destruct (k a). reflexivity.
Qed.

(** ** Output of a table: [_print_save_df] *)

Section PrintSave.

Variable env : Env.

Lemma print_save_df_file (df : DataFrame) (path : string) :
  path <> "" ->
  _print_save_df env df (Some path) =
    if endswith (lower path) ".csv"
    then call (EvToCsv df path Comma) (to_csv env df path Comma)
    else call (EvToCsv df path Tab) (to_csv env df path Tab).
Proof.
  intros Hne. unfold _print_save_df, truthy.
  destruct (String.eqb_spec path "") as [->|_]; [contradiction|].
  reflexivity.
Qed.

Lemma print_save_df_stdout (df : DataFrame) (saveto : option string) :
  truthy saveto = false ->
  _print_save_df env df saveto =
    if (0 <? index_len df)%nat
    then call (EvPrint (stdout_text env df)) (Return tt)
    else ret tt.
Proof.
  intros Hf. unfold _print_save_df. rewrite Hf.
  destruct (0 <? index_len df)%nat; [|reflexivity].
  unfold stdout_text. now rewrite fold_append_map.
Qed.

Lemma stdout_text_header (df : DataFrame) :
  exists body, stdout_text env df = join TAB (columns df) +:+ NL +:+ body.
Proof.
  unfold stdout_text.
  destruct (split_lines_cons (lstrip (to_string env df))) as (h & t & ->).
  simpl map. rewrite join_cons_cons. eauto.
Qed.

(** No handler of this module ever needs more of the printer than this:
    it performs at most one external action and only fails if
    [to_csv] does. *)
Lemma print_save_df_no_source_event (df : DataFrame) (saveto : option string) :
  Forall (fun ev => match ev with
                    | EvToCsv _ _ _ | EvPrint _ => True
                    | _ => False
                    end)
         (trace (_print_save_df env df saveto)).
Proof.
  unfold _print_save_df.
  repeat match goal with |- context [if ?b then _ else _] => destruct b end;
    simpl; repeat constructor.
Qed.

End PrintSave.

Lemma index_len_pos (df : DataFrame) :
  rows df <> [] -> (0 <? index_len df)%nat = true.
Proof.
  unfold index_len. destruct (rows df); [congruence | reflexivity].
Qed.

Lemma index_len_zero (df : DataFrame) :
  rows df = [] -> (0 <? index_len df)%nat = false.
Proof. unfold index_len. now intros ->. Qed.

Lemma no_path_truthy (saveto : option string) :
  no_path saveto -> truthy saveto = false.
Proof. now intros [-> | ->]. Qed.

(** C3, as stated, fails on standard output, twice.  For a table without
    rows and no destination path nothing at all is written.  For a table
    with a row, the data line printed is the line of the rendering: with
    a rendering that separates cells by blanks, as [DataFrame.to_string]
    does, the printed text is not the tab-separated table. *)
Lemma separator_rule_fails_on_stdout :
  ~ separator_rule Sample.env Sample.no_rows None /\
  ~ separator_rule Sample.env Sample.df None.
Proof.
  split; intros (_ & _ & H); specialize (H (or_introl eq_refl));
    vm_compute in H; discriminate H.
Qed.

(** C3, amended: a non-empty path ending in [.csv] (in any letter case)
    receives the table comma-separated, every other non-empty path receives
    it tab-separated; with no path and at least one row a single text is
    printed: the column names joined by tabs as first line, then the lines
    of the rendering taken after the leading whitespace of the whole
    rendering has been removed, each of them left-stripped (the cells of
    these lines stay separated as the rendering separates them); with no
    path and no row nothing is written. *)
Theorem print_save_df_sinks (env : Env) (df : DataFrame) (saveto : option string) :
  (forall path, saveto = Some path -> path <> "" ->
     endswith (lower path) ".csv" = true ->
     trace (_print_save_df env df saveto) = [EvToCsv df path Comma]) /\
  (forall path, saveto = Some path -> path <> "" ->
     endswith (lower path) ".csv" = false ->
     trace (_print_save_df env df saveto) = [EvToCsv df path Tab]) /\
  (no_path saveto -> rows df <> [] ->
     trace (_print_save_df env df saveto) = [EvPrint (stdout_text env df)] /\
     exists body, stdout_text env df = join TAB (columns df) +:+ NL +:+ body) /\
  (no_path saveto -> rows df = [] ->
     trace (_print_save_df env df saveto) = []).
Proof.
  split; [|split; [|split]].
  - intros path -> Hne Hcsv. rewrite print_save_df_file by assumption.
    now rewrite Hcsv.
  - intros path -> Hne Hcsv. rewrite print_save_df_file by assumption.
    now rewrite Hcsv.
  - intros Hno Hrows. apply no_path_truthy in Hno. split.
    + rewrite print_save_df_stdout by assumption.
      now rewrite index_len_pos.
    + apply stdout_text_header.
  - intros Hno Hrows. apply no_path_truthy in Hno.
    rewrite print_save_df_stdout by assumption.
    now rewrite index_len_zero.
Qed.

Lemma print_save_df_sinks_witness :
  trace (_print_save_df Sample.env Sample.df (Some "runs.CSV"))
    = [EvToCsv Sample.df "runs.CSV" Comma] /\
  trace (_print_save_df Sample.env Sample.df (Some "runs.csv.bak"))
    = [EvToCsv Sample.df "runs.csv.bak" Tab] /\
  trace (_print_save_df Sample.env Sample.df None)
    = [EvPrint (stdout_text Sample.env Sample.df)] /\
  trace (_print_save_df Sample.env Sample.no_rows (Some "")) = [].
Proof.
  split; [|split; [|split]].
  - apply (proj1 (print_save_df_sinks Sample.env Sample.df (Some "runs.CSV")));
      [reflexivity | discriminate | vm_compute; reflexivity].
  - apply (proj1 (proj2 (print_save_df_sinks Sample.env Sample.df
                           (Some "runs.csv.bak"))));
      [reflexivity | discriminate | vm_compute; reflexivity].
  - apply (proj1 (proj2 (proj2 (print_save_df_sinks Sample.env Sample.df None))));
      [left; reflexivity | discriminate].
  - apply (proj2 (proj2 (proj2 (print_save_df_sinks Sample.env Sample.no_rows
                                  (Some "")))));
      [right; reflexivity | reflexivity].
Defined.

(** C4, as stated, fails: a table without rows printed to standard output
    produces no header line (it produces nothing). *)
Lemma header_missing_for_empty_table :
  ~ exists rest,
      stdout_of (trace (_print_save_df Sample.env Sample.no_rows None))
      = join TAB (columns Sample.no_rows) +:+ NL +:+ rest.
Proof.
  intros [rest H]. vm_compute in H. discriminate H.
Qed.

(** C4, amended: for every table with at least one row written to standard
    output (no destination path), the output begins with the column names
    joined by tabs, followed by a line feed; for a table with zero rows
    standard output stays empty. *)
Theorem stdout_header_line (env : Env) (df : DataFrame) (saveto : option string) :
  no_path saveto ->
  (rows df <> [] ->
     exists rest,
       stdout_of (trace (_print_save_df env df saveto))
       = join TAB (columns df) +:+ NL +:+ rest) /\
  (rows df = [] ->
     stdout_of (trace (_print_save_df env df saveto)) = "").
Proof.
  intros Hno. apply no_path_truthy in Hno. split; intros Hrows.
  - rewrite print_save_df_stdout by assumption.
    rewrite index_len_pos by assumption.
    destruct (stdout_text_header env df) as [body Hb].
    exists (body +:+ NL). simpl. rewrite Hb.
    now rewrite !append_assoc.
  - rewrite print_save_df_stdout by assumption.
    now rewrite index_len_zero.
Qed.

Lemma stdout_header_line_witness :
  exists rest,
    stdout_of (trace (_print_save_df Sample.env Sample.df None))
    = "run_accession" +:+ TAB +:+ "study_accession" +:+ NL +:+ rest.
Proof.
  destruct (stdout_header_line Sample.env Sample.df None (or_introl eq_refl))
    as [H _].
  destruct (H ltac:(discriminate)) as [rest Hr].
  exists rest. exact Hr.
Defined.

Lemma dispatch_conversion (env : Env) (args : Ns.t) (c : conversion) :
  Ns.command args = Some (command_name c) ->
  dispatch env args =
    conv_handler c env (conv_ids args c) (Ns.db args) (Ns.saveto args)
      (Ns.detailed args) (Ns.desc args) (Ns.expand args).
Proof.
  intros H. unfold dispatch. rewrite H. destruct c; reflexivity.
Qed.

Lemma dispatch_metadata (env : Env) (args : Ns.t) :
  Ns.command args = Some "metadata" ->
  dispatch env args =
    metadata env (Ns.srp_id args) (Ns.db args) (Ns.assay args) (Ns.desc args)
      (Ns.detailed args) (Ns.expand args) (Ns.saveto args).
Proof. intros H. unfold dispatch. rewrite H. reflexivity. Qed.

Lemma dispatch_download (env : Env) (args : Ns.t) :
  Ns.command args = Some "download" ->
  dispatch env args =
    download env (Ns.out_dir args) (Ns.db args) (Ns.srx args) (Ns.srp args)
      (Ns.skip_confirmation args) (Ns.col args) true.
Proof. intros H. unfold dispatch. rewrite H. reflexivity. Qed.

Lemma conv_handler_unfold (c : conversion) (env : Env) (ids : pyids)
    (db saveto : option string) (detailed desc expand : bool) :
  conv_handler c env ids db saveto detailed desc expand =
    (let* db' := _check_sradb_file env db in
     let* sradb := get_sra_object env db' in
     via_contract env c sradb ids saveto detailed desc expand).
Proof. destruct c; reflexivity. Qed.

Lemma metadata_unfold (env : Env) (srp_id : pyids) (db saveto : option string)
    (assay desc detailed expand : bool) :
  metadata env srp_id db assay desc detailed expand saveto =
    (let* db' := _check_sradb_file env db in
     let* sradb := get_sra_object env db' in
     let* df := call (EvSraMetadata srp_id (Some assay) (Some detailed)
                                    (Some desc) (Some expand))
                     (src_sra_metadata sradb srp_id (Some assay) (Some detailed)
                                       (Some desc) (Some expand)) in
     _print_save_df env df saveto ;;
     call EvClose (src_close sradb)).
Proof. reflexivity. Qed.

(** ** Properties of whole traces *)

Lemma trace_bind_call {A B} (ev : event) (ans : outcome A) (k : A -> M B) :
  trace (bind (call ev ans) k) =
    ev :: match ans with Return a => trace (k a) | Raise _ => [] end.
Proof.
  destruct ans as [a|e]; [|reflexivity].
  now rewrite bind_call_return.
Qed.

Lemma Forall_trace_bind {A B} (P : event -> Prop) (m : M A) (k : A -> M B) :
  Forall P (trace m) ->
  (forall a, Forall P (trace (k a))) ->
  Forall P (trace (bind m k)).
Proof.
  intros Hm Hk. destruct m as [t [a|e]]; simpl in *; [|exact Hm].
  specialize (Hk a). unfold bind. destruct (k a) as [t' r]. simpl in *.
  apply Forall_app. now split.
Qed.

Lemma Forall_trace_call {A} (P : event -> Prop) (ev : event) (ans : outcome A) :
  P ev -> Forall P (trace (call ev ans)).
Proof. intros H. now repeat constructor. Qed.

Lemma Forall_trace_print_save (P : event -> Prop) (env : Env)
    (df : DataFrame) (saveto : option string) :
  (forall d p s, P (EvToCsv d p s)) ->
  (forall text, P (EvPrint text)) ->
  Forall P (trace (_print_save_df env df saveto)).
Proof.
  intros Hcsv Hprint.
  eapply Forall_impl; [apply print_save_df_no_source_event|].
  intros [] H; simpl in H; try contradiction; auto.
Qed.

Lemma Forall_trace_for_each {A} (P : event -> Prop) (l : list A)
    (body : A -> M unit) :
  (forall x, Forall P (trace (body x))) ->
  Forall P (trace (for_each l body)).
Proof.
  intros Hb. induction l as [|x l IH]; simpl.
  - constructor.
  - apply Forall_trace_bind; [apply Hb | intros _; exact IH].
Qed.

(** ** The snapshot check: [_check_sradb_file] and [get_sra_object] *)

Lemma check_explicit_missing (env : Env) (path : string) :
  isfile env path = false ->
  _check_sradb_file env (Some path) =
    raise (RuntimeError (path +:+ " does not exist")).
Proof. intros H. unfold _check_sradb_file. now rewrite H. Qed.

Lemma check_default (env : Env) :
  _check_sradb_file env None =
    ret (if isfile env (default_snapshot env)
         then default_snapshot env else "web").
Proof.
  unfold _check_sradb_file, default_snapshot.
  now destruct (isfile env _).
Qed.

(** The probed path is never the string ["web"]: it is at least as long
    as the file name. *)
Lemma default_snapshot_not_web (env : Env) :
  String.eqb (default_snapshot env) "web" = false.
Proof.
  apply String.eqb_neq. intros H.
  apply (f_equal String.length) in H.
  unfold default_snapshot, os_path_join in H.
  change (startswith "SRAmetadb.sqlite" sep) with false in H.
  destruct (String.eqb (getcwd env) "" || endswith (getcwd env) sep);
    rewrite ?length_append in H; simpl in H; lia.
Qed.

Lemma get_sra_object_default (env : Env) :
  get_sra_object env (if isfile env (default_snapshot env)
                      then default_snapshot env else "web") =
    call (EvNewSource (default_source env))
         (new_source env (default_source env)).
Proof.
  unfold get_sra_object, default_source.
  destruct (isfile env (default_snapshot env)).
  - now rewrite default_snapshot_not_web.
  - reflexivity.
Qed.

(** C5: a conversion or metadata command given an explicit [--db] path
    that is not an existing file raises [RuntimeError] with the message
    "<path> does not exist"; the trace is empty, so no source object was
    built and no resolution call was made. *)
Theorem missing_snapshot_is_fatal (env : Env) (args : Ns.t) (path : string) :
  snapshot_command args ->
  Ns.db args = Some path ->
  isfile env path = false ->
  dispatch env args = ([], Raise (RuntimeError (path +:+ " does not exist"))).
Proof.
  intros [Hcmd | [c Hcmd]] Hdb Hfile.
  - rewrite dispatch_metadata, metadata_unfold by assumption.
    rewrite Hdb, check_explicit_missing by assumption. reflexivity.
  - rewrite dispatch_conversion with (c := c) by assumption.
    rewrite conv_handler_unfold.
    rewrite Hdb, check_explicit_missing by assumption. reflexivity.
Qed.

Lemma missing_snapshot_is_fatal_witness :
  dispatch Sample.env
    (Sample.args_with "srr-to-srx" (Some "/tmp/absent.sqlite") None false false)
  = ([], Raise (RuntimeError "/tmp/absent.sqlite does not exist")).
Proof.
  apply (missing_snapshot_is_fatal Sample.env _ "/tmp/absent.sqlite").
  - right. exists M_srr_to_srx. reflexivity.
  - reflexivity.
  - reflexivity.
Defined.

Lemma no_snapshot_download_via_contract (env : Env) (c : conversion)
    (sradb : SraSource) (ids : pyids) (saveto : option string)
    (detailed desc expand : bool) :
  Forall (fun ev => ~ is_snapshot_download ev)
         (trace (via_contract env c sradb ids saveto detailed desc expand)).
Proof.
  unfold via_contract.
  apply Forall_trace_bind; [apply Forall_trace_call; tauto|]. intros df.
  apply Forall_trace_bind; [apply Forall_trace_print_save; simpl; tauto|].
  intros _. apply Forall_trace_call. simpl. tauto.
Qed.

(** C6: a conversion or metadata command given no [--db] probes
    [<cwd>/SRAmetadb.sqlite]; the check returns that path when it is a file
    and ["web"] otherwise, without raising and without any external action;
    the first action of the command is then the construction of [SRAdb] on
    that path, respectively of [SRAweb], and [download_sradb_file] is never
    called. *)
Theorem default_snapshot_probe (env : Env) (args : Ns.t) :
  snapshot_command args ->
  Ns.db args = None ->
  _check_sradb_file env (Ns.db args) =
    ([], Return (if isfile env (default_snapshot env)
                 then default_snapshot env else "web")) /\
  (exists rest,
     trace (dispatch env args) = EvNewSource (default_source env) :: rest) /\
  Forall (fun ev => ~ is_snapshot_download ev) (trace (dispatch env args)).
Proof.
  intros Hcmd Hdb. split; [now rewrite Hdb, check_default|].
  destruct Hcmd as [Hcmd | [c Hcmd]].
  - rewrite dispatch_metadata, metadata_unfold by assumption.
    rewrite Hdb, check_default, bind_ret, get_sra_object_default.
    split.
    + rewrite trace_bind_call. eauto.
    + apply Forall_trace_bind; [apply Forall_trace_call; simpl; tauto|].
      intros sradb.
      apply Forall_trace_bind; [apply Forall_trace_call; simpl; tauto|].
      intros df.
      apply Forall_trace_bind; [apply Forall_trace_print_save; simpl; tauto|].
      intros _. apply Forall_trace_call. simpl. tauto.
  - rewrite dispatch_conversion with (c := c) by assumption.
    rewrite conv_handler_unfold.
    rewrite Hdb, check_default, bind_ret, get_sra_object_default.
    split.
    + rewrite trace_bind_call. eauto.
    + apply Forall_trace_bind; [apply Forall_trace_call; simpl; tauto|].
      intros sradb. apply no_snapshot_download_via_contract.
Qed.

Lemma default_snapshot_probe_witness :
  (exists rest,
     trace (dispatch Sample.env (Sample.args "gsm-to-srx")) =
       EvNewSource SRAweb :: rest) /\
  (exists rest,
     trace (dispatch (Sample.env_at "/data") (Sample.args "metadata")) =
       EvNewSource (SRAdb "/data/SRAmetadb.sqlite") :: rest).
Proof.
  split.
  - apply (default_snapshot_probe Sample.env (Sample.args "gsm-to-srx")).
    + right. exists M_gsm_to_srx. reflexivity.
    + reflexivity.
  - apply (default_snapshot_probe (Sample.env_at "/data")
             (Sample.args "metadata")).
    + left. reflexivity.
    + reflexivity.
Defined.

(** ** The conversion handlers and the shared contract *)

Lemma conv_handler_reaches_contract (c : conversion) (env : Env)
    (ids : pyids) (db saveto : option string) (detailed desc expand : bool)
    (db' : string) (sradb : SraSource) :
  _check_sradb_file env db = ret db' ->
  result (get_sra_object env db') = Return sradb ->
  exists rest,
    trace (conv_handler c env ids db saveto detailed desc expand) =
      trace (get_sra_object env db')
      ++ EvResolve c ids detailed desc expand :: rest.
Proof.
  intros Hcheck Hsrc.
  rewrite conv_handler_unfold, Hcheck, bind_ret.
  rewrite trace_bind_return with (a := sradb) by assumption.
  unfold via_contract. rewrite trace_bind_call. eauto.
Qed.

(** C8: every conversion handler is the same three steps (check the
    snapshot, build the source, go through the contract), the contract
    call carries [detailed] as [detailed], [desc] as [sample_attribute] and
    [expand] as [expand_sample_attributes], and what happens after the
    source is built depends on the source only through the answers of its
    contract methods, never on its class. *)
Theorem conversion_handlers_forward_flags (c : conversion) (env : Env)
    (ids : pyids) (db saveto : option string) (detailed desc expand : bool) :
  conv_handler c env ids db saveto detailed desc expand =
    (let* db' := _check_sradb_file env db in
     let* sradb := get_sra_object env db' in
     via_contract env c sradb ids saveto detailed desc expand) /\
  (forall db' sradb,
     _check_sradb_file env db = ret db' ->
     result (get_sra_object env db') = Return sradb ->
     exists rest,
       trace (conv_handler c env ids db saveto detailed desc expand) =
         trace (get_sra_object env db')
         ++ EvResolve c ids detailed desc expand :: rest) /\
  (forall s1 s2,
     src_resolve s1 = src_resolve s2 ->
     src_close s1 = src_close s2 ->
     via_contract env c s1 ids saveto detailed desc expand =
     via_contract env c s2 ids saveto detailed desc expand).
Proof.
  split; [apply conv_handler_unfold|]. split.
  - intros db' sradb. apply conv_handler_reaches_contract.
  - intros s1 s2 Hres Hclose. unfold via_contract.
    now rewrite Hres, Hclose.
Qed.

Lemma conversion_handlers_forward_flags_witness :
  (exists rest,
     trace (conv_handler M_srx_to_srr Sample.env (PyList ["SRX000001"])
              None None true false true) =
       trace (get_sra_object Sample.env "web")
       ++ EvResolve M_srx_to_srr (PyList ["SRX000001"]) true false true
          :: rest) /\
  (exists rest,
     trace (conv_handler M_srx_to_srr Sample.env (PyList ["SRX000001"])
              (Some "/data/SRAmetadb.sqlite") None true false true) =
       trace (get_sra_object Sample.env "/data/SRAmetadb.sqlite")
       ++ EvResolve M_srx_to_srr (PyList ["SRX000001"]) true false true
          :: rest).
Proof.
  split.
  - apply (proj1 (proj2 (conversion_handlers_forward_flags M_srx_to_srr
                           Sample.env (PyList ["SRX000001"]) None None
                           true false true))
             "web" (Sample.source SRAweb)); reflexivity.
  - apply (proj1 (proj2 (conversion_handlers_forward_flags M_srx_to_srr
                           Sample.env (PyList ["SRX000001"])
                           (Some "/data/SRAmetadb.sqlite") None
                           true false true))
             "/data/SRAmetadb.sqlite"
             (Sample.source (SRAdb "/data/SRAmetadb.sqlite"))); reflexivity.
Defined.

(** ** Dispatch by command name *)

(** C9: for a namespace whose command is [gse-to-srp], [dispatch] runs the
    [gse_to_srp] handler, whatever the [func] attribute holds (the
    subparser registers [gse_to_gsm] there); every conversion call that
    reaches the metadata source is therefore [gse_to_srp], and it is made
    as soon as the source is built. *)
Theorem gse_to_srp_dispatch (env : Env) (args : Ns.t) :
  Ns.command args = Some "gse-to-srp" ->
  subparser_func "gse-to-srp" = Some (H_conv M_gse_to_gsm) /\
  dispatch env args =
    gse_to_srp env (PyList (Ns.gse_ids args)) (Ns.db args) (Ns.saveto args)
      (Ns.detailed args) (Ns.desc args) (Ns.expand args) /\
  (forall h, dispatch env (Ns.with_func h args) = dispatch env args) /\
  Forall (fun ev => match ev with
                    | EvResolve m ids d s e =>
                        m = M_gse_to_srp /\ ids = PyList (Ns.gse_ids args) /\
                        d = Ns.detailed args /\ s = Ns.desc args /\
                        e = Ns.expand args
                    | _ => True
                    end)
         (trace (dispatch env args)) /\
  (forall db' sradb,
     _check_sradb_file env (Ns.db args) = ret db' ->
     result (get_sra_object env db') = Return sradb ->
     exists rest,
       trace (dispatch env args) =
         trace (get_sra_object env db')
         ++ EvResolve M_gse_to_srp (PyList (Ns.gse_ids args))
              (Ns.detailed args) (Ns.desc args) (Ns.expand args) :: rest).
Proof.
  intros Hcmd.
  assert (Hd : dispatch env args =
               gse_to_srp env (PyList (Ns.gse_ids args)) (Ns.db args)
                 (Ns.saveto args) (Ns.detailed args) (Ns.desc args)
                 (Ns.expand args))
    by apply (dispatch_conversion env args M_gse_to_srp Hcmd).
  split; [reflexivity|]. split; [exact Hd|]. split; [|split].
  - intros h. rewrite Hd.
    apply (dispatch_conversion env (Ns.with_func h args) M_gse_to_srp Hcmd).
  - rewrite Hd.
    change (gse_to_srp env) with (conv_handler M_gse_to_srp env).
    rewrite conv_handler_unfold.
    apply Forall_trace_bind.
    { unfold _check_sradb_file.
      repeat match goal with
             | |- context [match ?x with _ => _ end] => destruct x
             end; constructor. }
    intros db'. apply Forall_trace_bind.
    { unfold get_sra_object. destruct (String.eqb db' "web");
        now apply Forall_trace_call. }
    intros sradb. unfold via_contract.
    apply Forall_trace_bind; [now apply Forall_trace_call|]. intros df.
    apply Forall_trace_bind; [now apply Forall_trace_print_save|].
    intros _. now apply Forall_trace_call.
  - intros db' sradb Hcheck Hsrc. rewrite Hd.
    now apply (conv_handler_reaches_contract M_gse_to_srp) with (sradb := sradb).
Qed.

Lemma gse_to_srp_dispatch_witness :
  dispatch Sample.env (Sample.args "gse-to-srp") =
    gse_to_srp Sample.env (PyList ["GSE000001"]) None None false false false /\
  Ns.func (Sample.args "gse-to-srp") = H_conv M_gse_to_gsm /\
  trace (dispatch Sample.env (Sample.args "gse-to-srp")) =
    [EvNewSource SRAweb;
     EvResolve M_gse_to_srp (PyList ["GSE000001"]) false false false;
     EvPrint (stdout_text Sample.env Sample.df);
     EvClose].
Proof.
  split; [|split].
  - apply (gse_to_srp_dispatch Sample.env (Sample.args "gse-to-srp")).
    reflexivity.
  - reflexivity.
  - vm_compute. reflexivity.
Defined.

(** ** The download command *)

(** The events [download] can produce, by kind.  The two [EvDownload]
    shapes are the two call sites: the stdin branch and the [--srp] loop. *)
Lemma download_trace_events (P : event -> Prop) (env : Env)
    (out_dir db : option string) (srx srp : option (list string))
    (skip_confirmation : bool) (col : string) (use_wget : bool) :
  (forall k, P (EvNewSource k)) ->
  (forall text, P (EvReadCsv text)) ->
  (forall ids a d s e, P (EvSraMetadata ids a d s e)) ->
  P EvClose ->
  (forall df out,
     not_list srp = true ->
     P (EvDownload df out srx true
          (Some (if use_wget then "ftp" else "fasp")) (Some col))) ->
  (forall df out,
     not_list srp = false ->
     P (EvDownload df out srx skip_confirmation None None)) ->
  Forall P (trace (download env out_dir db srx srp skip_confirmation col use_wget)).
Proof.
  intros Hnew Hread Hmeta Hclose Hstdin Hsrp. unfold download.
  apply Forall_trace_bind.
  { unfold _check_sradb_file.
    repeat match goal with
           | |- context [match ?x with _ => _ end] => destruct x
           end; constructor. }
  intros db'. apply Forall_trace_bind.
  { unfold get_sra_object. destruct (String.eqb db' "web");
      now apply Forall_trace_call. }
  intros sradb. apply Forall_trace_bind; [|intros _; now apply Forall_trace_call].
  destruct (not_list srp) eqn:Hbranch.
  - apply Forall_trace_bind; [now apply Forall_trace_call|].
    intros df. apply Forall_trace_call. now apply Hstdin.
  - apply Forall_trace_for_each. intros srp_x.
    apply Forall_trace_bind; [now apply Forall_trace_call|].
    intros md. apply Forall_trace_call. now apply Hsrp.
Qed.

(** C1, as stated, fails: without [--srp] and without
    [--skip-confirmation] the table read from standard input is downloaded
    with [skip_confirmation=True]. *)
Lemma confirmation_rule_fails_on_stdin :
  ~ confirmation_rule Sample.env (Sample.args "download").
Proof.
  intros H.
  apply (Forall_lookup_1 _ _ 2
           (EvDownload Sample.df "/home/user/pysradb_downloads" None true
                       (Some "ftp") (Some "sra_url"))) in H.
  - specialize (H true eq_refl). discriminate H.
  - vm_compute. reflexivity.
Qed.

(** C1, amended: with [--srp], every download call on the metadata source
    carries the user's [--skip-confirmation] flag; without [--srp] (table
    read from standard input) every download call carries
    [skip_confirmation=True], whatever the flag. *)
Theorem download_skip_confirmation (env : Env) (args : Ns.t) :
  Ns.command args = Some "download" ->
  (not_list (Ns.srp args) = false ->
     downloads_skip (Ns.skip_confirmation args) (trace (dispatch env args))) /\
  (not_list (Ns.srp args) = true ->
     downloads_skip true (trace (dispatch env args))).
Proof.
  intros Hcmd. rewrite dispatch_download by assumption.
  split; intros Hbranch; apply download_trace_events;
    intros; simpl in *; congruence.
Qed.

Lemma download_skip_confirmation_witness :
  downloads_skip false
    (trace (dispatch Sample.env
              (Sample.args_with "download" None (Some ["SRP000001"])
                 false false))) /\
  downloads_skip true
    (trace (dispatch Sample.env
              (Sample.args_with "download" None None false false))).
Proof.
  split.
  - apply (proj1 (download_skip_confirmation Sample.env
                    (Sample.args_with "download" None (Some ["SRP000001"])
                       false false) eq_refl)).
    reflexivity.
  - apply (proj2 (download_skip_confirmation Sample.env
                    (Sample.args_with "download" None None false false)
                    eq_refl)).
    reflexivity.
Defined.

Lemma with_use_wget_fields (a1 a2 : Ns.t) :
  Ns.with_use_wget true a1 = Ns.with_use_wget true a2 ->
  Ns.command a1 = Ns.command a2 /\ Ns.out_dir a1 = Ns.out_dir a2 /\
  Ns.db a1 = Ns.db a2 /\ Ns.srx a1 = Ns.srx a2 /\ Ns.srp a1 = Ns.srp a2 /\
  Ns.skip_confirmation a1 = Ns.skip_confirmation a2 /\ Ns.col a1 = Ns.col a2.
Proof.
  intros H. repeat split.
  - exact (f_equal Ns.command H).
  - exact (f_equal Ns.out_dir H).
  - exact (f_equal Ns.db H).
  - exact (f_equal Ns.srx H).
  - exact (f_equal Ns.srp H).
  - exact (f_equal Ns.skip_confirmation H).
  - exact (f_equal Ns.col H).
Qed.

(** C10: two download invocations whose namespaces differ at most in
    [use_wget] have the same trace and the same outcome; both run
    [download] with [use_wget=True]; and whenever a [protocol] is passed to
    the metadata source it is ["ftp"]. *)
Theorem use_wget_is_ignored (env : Env) (args1 args2 : Ns.t) :
  Ns.command args1 = Some "download" ->
  Ns.with_use_wget true args1 = Ns.with_use_wget true args2 ->
  dispatch env args1 = dispatch env args2 /\
  dispatch env args1 =
    download env (Ns.out_dir args1) (Ns.db args1) (Ns.srx args1)
      (Ns.srp args1) (Ns.skip_confirmation args1) (Ns.col args1) true /\
  Forall (fun ev => forall p, protocol_of ev = Some p -> p = "ftp")
         (trace (dispatch env args1)).
Proof.
  intros Hcmd Heq.
  destruct (with_use_wget_fields _ _ Heq)
    as (Hc & Ho & Hd & Hx & Hp & Hs & Hl).
  assert (Hcmd2 : Ns.command args2 = Some "download") by congruence.
  rewrite (dispatch_download env args2 Hcmd2).
  rewrite (dispatch_download env args1 Hcmd).
  split; [now rewrite Ho, Hd, Hx, Hp, Hs, Hl|]. split; [reflexivity|].
  apply download_trace_events; intros; simpl in *; congruence.
Qed.

Lemma use_wget_is_ignored_witness :
  dispatch Sample.env (Sample.args_with "download" None None false false) =
  dispatch Sample.env (Sample.args_with "download" None None false true) /\
  trace (dispatch Sample.env (Sample.args_with "download" None None false false))
  !! 2%nat =
    Some (EvDownload Sample.df "/home/user/pysradb_downloads" None true
                     (Some "ftp") (Some "sra_url")).
Proof.
  split.
  - apply (use_wget_is_ignored Sample.env
             (Sample.args_with "download" None None false false)
             (Sample.args_with "download" None None false true));
      reflexivity.
  - vm_compute. reflexivity.
Defined.

(** ** The search command *)

Lemma getitems_lookup_all (fields : gmap string pyval) (keys : list string)
    (vals : list pyval) :
  lookup_all fields keys = Some vals ->
  getitems fields keys = ret vals.
Proof.
  revert vals. induction keys as [|k keys IH]; intros vals H; simpl in *.
  - now inversion H.
  - unfold getitem. destruct (fields !! k) as [v|]; [|discriminate].
    destruct (lookup_all fields keys) as [vs|]; [|discriminate].
    inversion H; subst. rewrite bind_ret, (IH vs eq_refl), bind_ret.
    reflexivity.
Qed.

(** The three branches of [search] differ in the class and in the key
    list only. *)
Lemma search_unfold (env : Env) (saveto db : option string)
    (verbosity return_max : Z) (fields : gmap string pyval) :
  search env saveto db verbosity return_max fields =
    (let* caught :=
       try_except_query
         (let* instance :=
            (let* args := getitems fields (fields_of (backend_of db)) in
             let* instance :=
               call (EvNewSearch (backend_of db) verbosity return_max args)
                    (new_search env (backend_of db) verbosity return_max args) in
             call EvSearch (inst_search instance) ;;
             ret instance)
          in ret (Some instance))
         (fun e => call (EvPrint (str_exn e)) (Return tt) ;; ret None) in
     match caught with
     | None => ret tt
     | Some instance =>
         let* df := call EvGetDf (inst_get_df instance) in
         _print_save_df env df saveto
     end).
Proof.
  unfold search, backend_of.
  destruct (bool_decide (db = Some "ena")); [reflexivity|].
  destruct (bool_decide (db = Some "geo")); reflexivity.
Qed.

Lemma search_flags_values (args : Ns.t) (b : search_backend) :
  lookup_all (search_flags args) (fields_of b) = Some (values_of args b).
Proof. destruct b; vm_compute; reflexivity. Qed.

Lemma search_follows_course (env : Env) (saveto db : option string)
    (verbosity return_max : Z) (fields : gmap string pyval)
    (vals : list pyval) :
  lookup_all fields (fields_of (backend_of db)) = Some vals ->
  search env saveto db verbosity return_max fields =
    search_course env saveto (backend_of db) verbosity return_max vals.
Proof.
  intros Hvals. rewrite search_unfold, (getitems_lookup_all _ _ _ Hvals).
  rewrite bind_ret. unfold search_course.
  destruct (new_search env _ verbosity return_max vals) as [inst|e].
  - rewrite bind_call_return.
    destruct (inst_search inst) as [[]|e].
    + simpl. destruct (inst_get_df inst) as [df|e]; simpl; [|reflexivity].
      destruct (_print_save_df env df saveto) as [t r]. reflexivity.
    + destruct e; reflexivity.
  - destruct e; reflexivity.
Qed.

Lemma search_course_head (env : Env) (saveto : option string)
    (b : search_backend) (verbosity return_max : Z) (vals : list pyval) :
  exists rest,
    trace (search_course env saveto b verbosity return_max vals) =
      EvNewSearch b verbosity return_max vals :: rest /\
    Forall (fun ev => new_search_of ev = None) rest.
Proof.
  unfold search_course.
  destruct (new_search env b verbosity return_max vals) as [inst|e].
  - destruct (inst_search inst) as [[]|e].
    + pose proof (Forall_trace_bind (fun ev => new_search_of ev = None)
                    (call EvGetDf (inst_get_df inst))
                    (fun df => _print_save_df env df saveto)) as H.
      destruct (bind _ _) as [t r]. eexists. split; [reflexivity|].
      constructor; [reflexivity|]. apply H.
      * now apply Forall_trace_call.
      * intros df. now apply Forall_trace_print_save.
    + destruct e; simpl; eexists; (split; [reflexivity|]);
        repeat constructor.
  - destruct e; simpl; eexists; (split; [reflexivity|]); repeat constructor.
Qed.

(** C7: [search] builds exactly one search object; its class is [EnaSearch]
    for [db = "ena"], [GeoSearch] for [db = "geo"] and [SraSearch] for any
    other value; its arguments are the verbosity, the maximum and the
    values of the eleven common fields, followed by the values of the three
    GEO-only fields for [GeoSearch] alone.  Through [dispatch] these are
    the corresponding attributes of the namespace. *)
Theorem search_backend_selection (env : Env) (saveto db : option string)
    (verbosity return_max : Z) (fields : gmap string pyval) :
  (backend_of (Some "ena") = EnaSearch /\
   backend_of (Some "geo") = GeoSearch /\
   (db <> Some "ena" -> db <> Some "geo" -> backend_of db = SraSearch)) /\
  (length common_fields = 11%nat /\ length geo_only_fields = 3%nat) /\
  (forall vals,
     lookup_all fields (fields_of (backend_of db)) = Some vals ->
     exists rest,
       trace (search env saveto db verbosity return_max fields) =
         EvNewSearch (backend_of db) verbosity return_max vals :: rest /\
       Forall (fun ev => new_search_of ev = None) rest) /\
  (forall args,
     Ns.command args = Some "search" ->
     exists rest,
       trace (dispatch env args) =
         EvNewSearch (backend_of (Ns.db args)) (Ns.verbosity args)
           (Ns.max args) (values_of args (backend_of (Ns.db args))) :: rest).
Proof.
  split; [|split; [|split]].
  - split; [reflexivity|]. split; [reflexivity|].
    intros Hena Hgeo. unfold backend_of.
    now rewrite !bool_decide_eq_false_2.
  - split; reflexivity.
  - intros vals Hvals. rewrite (search_follows_course _ _ _ _ _ _ _ Hvals).
    apply search_course_head.
  - intros args Hcmd.
    assert (Hd : dispatch env args =
                 search env (Ns.saveto args) (Ns.db args) (Ns.verbosity args)
                   (Ns.max args) (search_flags args))
      by (unfold dispatch; rewrite Hcmd; reflexivity).
    rewrite Hd, (search_follows_course _ _ _ _ _ _ _
                   (search_flags_values args _)).
    destruct (search_course_head env (Ns.saveto args)
                (backend_of (Ns.db args)) (Ns.verbosity args) (Ns.max args)
                (values_of args (backend_of (Ns.db args)))) as (rest & H & _).
    eauto.
Qed.

Lemma search_backend_selection_witness :
  (exists rest,
     trace (search Sample.env None (Some "geo") 2 20
              (search_flags (Sample.args "search"))) =
       EvNewSearch GeoSearch 2 20
         (values_of (Sample.args "search") GeoSearch) :: rest /\
     Forall (fun ev => new_search_of ev = None) rest) /\
  (exists rest,
     trace (dispatch Sample.env
              (Sample.args_with "search" (Some "ena") None false false)) =
       EvNewSearch EnaSearch 2 20
         (common_values (Sample.args "search")) :: rest).
Proof.
  split.
  - apply (proj1 (proj2 (proj2 (search_backend_selection Sample.env None
                                  (Some "geo") 2 20
                                  (search_flags (Sample.args "search")))))).
    vm_compute. reflexivity.
  - apply (proj2 (proj2 (proj2 (search_backend_selection Sample.env None None
                                  2 20 ∅)))
             (Sample.args_with "search" (Some "ena") None false false)).
    reflexivity.
Defined.

(** C2, as stated, fails: the [try] block of [search] ends before
    [get_df()], so a [MissingQueryException] raised there leaves [search]
    as an exception and nothing is printed. *)
Lemma query_error_from_get_df_escapes :
  ~ query_error_rule LateError.env None (Some "sra") 2 20
      (search_flags (Sample.args "search")).
Proof.
  intros H.
  destruct (H (common_values (Sample.args "search"))
              (MissingQueryException "No valid query or parameter"))
    as [Hres _].
  - vm_compute. reflexivity.
  - exact I.
  - right. exists LateError.instance. split; [reflexivity|].
    right. split; reflexivity.
  - vm_compute in Hres. discriminate Hres.
Qed.

(** C2, amended: when the class selected by [db] raises
    [MissingQueryException] or [IncorrectFieldException] from its
    constructor or from its [search] method, the two calls inside the
    [try] block, [search] prints the message of the exception and returns
    normally; the trace holds the calls made so far and that one print,
    so no table is fetched, printed or saved. *)
Theorem search_query_errors_caught (env : Env) (saveto db : option string)
    (verbosity return_max : Z) (fields : gmap string pyval)
    (vals : list pyval) (e : exn) :
  lookup_all fields (fields_of (backend_of db)) = Some vals ->
  is_query_error e ->
  (new_search env (backend_of db) verbosity return_max vals = Raise e ->
   search env saveto db verbosity return_max fields =
     ([EvNewSearch (backend_of db) verbosity return_max vals;
       EvPrint (str_exn e)],
      Return tt)) /\
  (forall instance,
     new_search env (backend_of db) verbosity return_max vals
       = Return instance ->
     inst_search instance = Raise e ->
     search env saveto db verbosity return_max fields =
       ([EvNewSearch (backend_of db) verbosity return_max vals;
         EvSearch;
         EvPrint (str_exn e)],
        Return tt)).
Proof.
  intros Hvals He. rewrite (search_follows_course _ _ _ _ _ _ _ Hvals).
  unfold search_course. split.
  - intros ->. destruct e; simpl in He; try contradiction; reflexivity.
  - intros instance -> ->.
    destruct e; simpl in He; try contradiction; reflexivity.
Qed.

Lemma search_query_errors_caught_witness :
  search Sample.env None (Some "sra") 2 20
    (search_flags (Sample.args "search")) =
    ([EvNewSearch SraSearch 2 20 (common_values (Sample.args "search"));
      EvPrint "No valid query or parameter"],
     Return tt).
Proof.
  apply (proj1 (search_query_errors_caught Sample.env None (Some "sra") 2 20
                  (search_flags (Sample.args "search"))
                  (common_values (Sample.args "search"))
                  (MissingQueryException "No valid query or parameter")
                  ltac:(vm_compute; reflexivity) I)).
  reflexivity.
Defined.

(** * Further properties of the module *)

(** ** Monad bookkeeping *)

Lemma bind_step {A B} (m : M A) (k : A -> M B) (a : A) :
  result m = Return a ->
  bind m k = (trace m ++ trace (k a), result (k a)).
Proof.
  destruct m as [t r]; simpl. intros ->. unfold bind, trace, result.
  destruct (k a). reflexivity.
Qed.

Lemma bind_stop {A B} (m : M A) (k : A -> M B) (e : exn) :
  result m = Raise e ->
  bind m k = (trace m, Raise e).
Proof. destruct m as [t r]; simpl. intros ->. reflexivity. Qed.

Lemma close_not_in_print_save (env : Env) (df : DataFrame)
    (saveto : option string) :
  ~ In EvClose (trace (_print_save_df env df saveto)).
Proof.
  intros Hin.
  pose proof (print_save_df_no_source_event env df saveto) as H.
  rewrite Forall_forall in H. apply list_elem_of_In in Hin.
  exact (H _ Hin).
Qed.

Lemma close_not_in_new_source (env : Env) (db : string) :
  ~ In EvClose (trace (get_sra_object env db)).
Proof.
  unfold get_sra_object.
  destruct (String.eqb db "web"); simpl; intuition discriminate.
Qed.

(** ** Life cycle of the metadata source in a conversion handler *)

(** X1: when the snapshot check passes, the source is built, the contract
    method answers with a table and the table is delivered, a conversion
    handler performs exactly: the construction, the one contract call, the
    output of the table, and [close] as its last action; its outcome is
    that of [close]. *)
Theorem conversion_closes_source (c : conversion) (env : Env) (ids : pyids)
    (db saveto : option string) (detailed desc expand : bool)
    (db' : string) (sradb : SraSource) (df : DataFrame) :
  _check_sradb_file env db = ret db' ->
  result (get_sra_object env db') = Return sradb ->
  src_resolve sradb c ids detailed desc expand = Return df ->
  result (_print_save_df env df saveto) = Return tt ->
  conv_handler c env ids db saveto detailed desc expand =
    (trace (get_sra_object env db')
     ++ EvResolve c ids detailed desc expand
        :: trace (_print_save_df env df saveto) ++ [EvClose],
     src_close sradb).
Proof.
  intros Hcheck Hsrc Hres Hout.
  rewrite conv_handler_unfold, Hcheck, bind_ret.
  rewrite (bind_step _ _ sradb Hsrc). unfold via_contract.
  rewrite Hres, bind_call_return, (bind_step _ _ tt Hout).
  reflexivity.
Qed.

Lemma conversion_closes_source_witness :
  conv_handler M_srp_to_srr Sample.env (PyOne "SRP000001")
    (Some "/data/SRAmetadb.sqlite") (Some "runs.tsv") true false false =
    ([EvNewSource (SRAdb "/data/SRAmetadb.sqlite");
      EvResolve M_srp_to_srr (PyOne "SRP000001") true false false;
      EvToCsv Sample.df "runs.tsv" Tab;
      EvClose],
     Return tt).
Proof.
  apply (conversion_closes_source M_srp_to_srr Sample.env (PyOne "SRP000001")
           (Some "/data/SRAmetadb.sqlite") (Some "runs.tsv") true false false
           "/data/SRAmetadb.sqlite"
           (Sample.source (SRAdb "/data/SRAmetadb.sqlite")) Sample.df);
    reflexivity.
Defined.

(** X2: a conversion handler has no [finally]: when the contract method
    raises, or when writing the table raises, the exception leaves the
    handler and the source is never closed. *)
Theorem conversion_failure_leaves_source_open (c : conversion) (env : Env)
    (ids : pyids) (db saveto : option string) (detailed desc expand : bool)
    (db' : string) (sradb : SraSource) (e : exn) :
  _check_sradb_file env db = ret db' ->
  result (get_sra_object env db') = Return sradb ->
  (src_resolve sradb c ids detailed desc expand = Raise e \/
   exists df,
     src_resolve sradb c ids detailed desc expand = Return df /\
     result (_print_save_df env df saveto) = Raise e) ->
  result (conv_handler c env ids db saveto detailed desc expand) = Raise e /\
  ~ In EvClose (trace (conv_handler c env ids db saveto detailed desc expand)).
Proof.
  intros Hcheck Hsrc Hfail.
  rewrite conv_handler_unfold, Hcheck, bind_ret.
  rewrite (bind_step _ _ sradb Hsrc). unfold via_contract.
  pose proof (close_not_in_new_source env db') as Hnew.
  destruct Hfail as [Hres | (df & Hres & Hout)]; rewrite Hres.
  - simpl. split; [reflexivity|]. rewrite in_app_iff. simpl.
    intuition discriminate.
  - rewrite bind_call_return, (bind_stop _ _ e Hout). simpl.
    split; [reflexivity|]. rewrite in_app_iff. simpl.
    pose proof (close_not_in_print_save env df saveto).
    intuition discriminate.
Qed.

Lemma conversion_failure_leaves_source_open_witness :
  (result (conv_handler M_gse_to_gsm Faulty.env (PyList []) None None
             false false false)
   = Raise (OtherException "no accession") /\
   ~ In EvClose (trace (conv_handler M_gse_to_gsm Faulty.env (PyList [])
                          None None false false false))) /\
  (result (conv_handler M_gse_to_gsm Faulty.env (PyList ["GSE000001"]) None
             (Some "/readonly/out.csv") false false false)
   = Raise (OtherException "Permission denied") /\
   ~ In EvClose (trace (conv_handler M_gse_to_gsm Faulty.env
                          (PyList ["GSE000001"]) None
                          (Some "/readonly/out.csv") false false false))).
Proof.
  split.
  - apply (conversion_failure_leaves_source_open M_gse_to_gsm Faulty.env
             (PyList []) None None false false false "web"
             (Faulty.source SRAweb)); [reflexivity | reflexivity |].
    left. reflexivity.
  - apply (conversion_failure_leaves_source_open M_gse_to_gsm Faulty.env
             (PyList ["GSE000001"]) None (Some "/readonly/out.csv")
             false false false "web" (Faulty.source SRAweb));
      [reflexivity | reflexivity |].
    right. exists Sample.df. split; reflexivity.
Defined.

(** ** The download command, call by call *)

Lemma download_unfold (env : Env) (out_dir db : option string)
    (srx srp : option (list string)) (skip_confirmation : bool)
    (col : string) (use_wget : bool) (db' : string) (sradb : SraSource) :
  _check_sradb_file env db = ret db' ->
  result (get_sra_object env db') = Return sradb ->
  download env out_dir db srx srp skip_confirmation col use_wget =
    (let '(t, r) :=
       ((if not_list srp then
           let text := stdin_text 0 (stdin env) "" in
           let* df := call (EvReadCsv text) (read_csv env text) in
           call (EvDownload df (download_out_dir env out_dir) srx true
                   (Some (if use_wget then "ftp" else "fasp")) (Some col))
                (src_download sradb df (download_out_dir env out_dir) srx true
                   (Some (if use_wget then "ftp" else "fasp")) (Some col))
         else
           for_each (default [] srp) (fun srp_x =>
             let* metadata :=
               call (EvSraMetadata (PyOne srp_x) None (Some true) None None)
                    (src_sra_metadata sradb (PyOne srp_x) None (Some true)
                       None None) in
             call (EvDownload metadata (download_out_dir env out_dir) srx
                     skip_confirmation None None)
                  (src_download sradb metadata (download_out_dir env out_dir)
                     srx skip_confirmation None None))) ;;
        call EvClose (src_close sradb))
     in (trace (get_sra_object env db') ++ t, r)).
Proof.
  intros Hcheck Hsrc. unfold download. rewrite Hcheck, bind_ret.
  rewrite (bind_step _ _ sradb Hsrc). unfold download_out_dir.
  match goal with |- (_, result ?m) = _ => destruct m as [t r] end.
  reflexivity.
Qed.

Lemma for_each_cons {A} (x : A) (l : list A) (body : A -> M unit) :
  for_each (x :: l) body = (body x ;; for_each l body).
Proof. reflexivity. Qed.

(** The [--srp] loop over studies that all succeed. *)
Lemma srp_loop_success (sradb : SraSource) (out : string)
    (srx : option (list string)) (skip : bool) (md : string -> DataFrame)
    (l : list string) :
  (forall x, In x l ->
     src_sra_metadata sradb (PyOne x) None (Some true) None None
       = Return (md x) /\
     src_download sradb (md x) out srx skip None None = Return tt) ->
  for_each l (fun srp_x =>
    let* metadata :=
      call (EvSraMetadata (PyOne srp_x) None (Some true) None None)
           (src_sra_metadata sradb (PyOne srp_x) None (Some true) None None) in
    call (EvDownload metadata out srx skip None None)
         (src_download sradb metadata out srx skip None None))
  = (flat_map (srp_calls out srx skip md) l, Return tt).
Proof.
  induction l as [|x l IH]; intros Hall; [reflexivity|].
  destruct (Hall x (or_introl eq_refl)) as [Hmd Hdl].
  rewrite for_each_cons. cbv beta.
  rewrite Hmd, bind_call_return, Hdl.
  rewrite IH by (intros y Hy; apply Hall; now right).
  reflexivity.
Qed.

(** The [--srp] loop meeting a study that fails: the studies after it are
    not touched. *)
Lemma srp_loop_failure (sradb : SraSource) (out : string)
    (srx : option (list string)) (skip : bool) (md : string -> DataFrame)
    (pre post : list string) (x : string) (e : exn) (last : list event) :
  (forall y, In y pre ->
     src_sra_metadata sradb (PyOne y) None (Some true) None None
       = Return (md y) /\
     src_download sradb (md y) out srx skip None None = Return tt) ->
  (src_sra_metadata sradb (PyOne x) None (Some true) None None = Raise e /\
   last = [EvSraMetadata (PyOne x) None (Some true) None None]) \/
  (src_sra_metadata sradb (PyOne x) None (Some true) None None
     = Return (md x) /\
   src_download sradb (md x) out srx skip None None = Raise e /\
   last = srp_calls out srx skip md x) ->
  for_each (pre ++ x :: post) (fun srp_x =>
    let* metadata :=
      call (EvSraMetadata (PyOne srp_x) None (Some true) None None)
           (src_sra_metadata sradb (PyOne srp_x) None (Some true) None None) in
    call (EvDownload metadata out srx skip None None)
         (src_download sradb metadata out srx skip None None))
  = (flat_map (srp_calls out srx skip md) pre ++ last, Raise e).
Proof.
  intros Hpre Hx. induction pre as [|y pre IH].
  - change ([] ++ x :: post) with (x :: post).
    rewrite for_each_cons. cbv beta.
    destruct Hx as [[Hmd ->] | (Hmd & Hdl & ->)].
    + rewrite Hmd. reflexivity.
    + rewrite Hmd, bind_call_return, Hdl. reflexivity.
  - destruct (Hpre y (or_introl eq_refl)) as [Hmd Hdl].
    change ((y :: pre) ++ x :: post) with (y :: (pre ++ x :: post)).
    rewrite for_each_cons. cbv beta.
    rewrite Hmd, bind_call_return, Hdl.
    rewrite IH by (intros z Hz; apply Hpre; now right).
    reflexivity.
Qed.

(** X3: [download] with [--srp], every study succeeding: after the source
    is built the trace is, for each study in the order given, its
    [sra_metadata(srp, detailed=True)] call followed by the download of
    the table obtained, and then [close]; the outcome is that of [close]. *)
Theorem download_srp_in_order (env : Env) (out_dir db : option string)
    (srx : option (list string)) (l : list string) (skip_confirmation : bool)
    (col : string) (use_wget : bool) (db' : string) (sradb : SraSource)
    (md : string -> DataFrame) :
  _check_sradb_file env db = ret db' ->
  result (get_sra_object env db') = Return sradb ->
  l <> [] ->
  (forall x, In x l ->
     src_sra_metadata sradb (PyOne x) None (Some true) None None
       = Return (md x) /\
     src_download sradb (md x) (download_out_dir env out_dir) srx
       skip_confirmation None None = Return tt) ->
  download env out_dir db srx (Some l) skip_confirmation col use_wget =
    (trace (get_sra_object env db')
     ++ flat_map (srp_calls (download_out_dir env out_dir) srx
                    skip_confirmation md) l
     ++ [EvClose],
     src_close sradb).
Proof.
  intros Hcheck Hsrc Hne Hall.
  rewrite (download_unfold _ _ _ _ _ _ _ _ db' sradb Hcheck Hsrc).
  destruct l as [|x l]; [contradiction|].
  change (not_list (Some (x :: l))) with false. cbv iota.
  change (default [] (Some (x :: l))) with (x :: l).
  rewrite (srp_loop_success sradb _ srx skip_confirmation md (x :: l) Hall).
  reflexivity.
Qed.

Lemma download_srp_in_order_witness :
  download Sample.env None None None (Some ["SRP000001"; "SRP000002"])
    false "sra_url" true =
    ([EvNewSource SRAweb;
      EvSraMetadata (PyOne "SRP000001") None (Some true) None None;
      EvDownload Sample.df "/home/user/pysradb_downloads" None false None None;
      EvSraMetadata (PyOne "SRP000002") None (Some true) None None;
      EvDownload Sample.df "/home/user/pysradb_downloads" None false None None;
      EvClose],
     Return tt).
Proof.
  apply (download_srp_in_order Sample.env None None None
           ["SRP000001"; "SRP000002"] false "sra_url" true "web"
           (Sample.source SRAweb) (fun _ => Sample.df));
    [reflexivity | reflexivity | discriminate |].
  intros x _. split; reflexivity.
Defined.

(** X4: the [--srp] loop stops at the first study whose metadata call or
    whose download raises: the exception leaves [download], the studies
    after it are neither looked up nor downloaded, and the source is not
    closed. *)
Theorem download_srp_stops_at_failure (env : Env) (out_dir db : option string)
    (srx : option (list string)) (pre post : list string) (x : string)
    (skip_confirmation : bool) (col : string) (use_wget : bool)
    (db' : string) (sradb : SraSource) (md : string -> DataFrame)
    (e : exn) (last : list event) :
  _check_sradb_file env db = ret db' ->
  result (get_sra_object env db') = Return sradb ->
  (forall y, In y pre ->
     src_sra_metadata sradb (PyOne y) None (Some true) None None
       = Return (md y) /\
     src_download sradb (md y) (download_out_dir env out_dir) srx
       skip_confirmation None None = Return tt) ->
  (src_sra_metadata sradb (PyOne x) None (Some true) None None = Raise e /\
   last = [EvSraMetadata (PyOne x) None (Some true) None None]) \/
  (src_sra_metadata sradb (PyOne x) None (Some true) None None
     = Return (md x) /\
   src_download sradb (md x) (download_out_dir env out_dir) srx
     skip_confirmation None None = Raise e /\
   last = srp_calls (download_out_dir env out_dir) srx skip_confirmation
            md x) ->
  download env out_dir db srx (Some (pre ++ x :: post)) skip_confirmation
    col use_wget =
    (trace (get_sra_object env db')
     ++ flat_map (srp_calls (download_out_dir env out_dir) srx
                    skip_confirmation md) pre
     ++ last,
     Raise e).
Proof.
  intros Hcheck Hsrc Hpre Hx.
  rewrite (download_unfold _ _ _ _ _ _ _ _ db' sradb Hcheck Hsrc).
  assert (Hnl : not_list (Some (pre ++ x :: post)) = false)
    by (destruct pre; reflexivity).
  rewrite Hnl. change (default [] (Some (pre ++ x :: post)))
    with (pre ++ x :: post).
  rewrite (srp_loop_failure sradb _ srx skip_confirmation md pre post x e
             last Hpre Hx).
  reflexivity.
Qed.

Lemma download_srp_stops_at_failure_witness :
  download Faulty.env None None None
    (Some (["SRP000001"] ++ "SRP404" :: ["SRP000002"])) true "sra_url" true =
    ([EvNewSource SRAweb;
      EvSraMetadata (PyOne "SRP000001") None (Some true) None None;
      EvDownload Sample.df "/home/user/pysradb_downloads" None true None None;
      EvSraMetadata (PyOne "SRP404") None (Some true) None None],
     Raise (OtherException "not found")) /\
  download Faulty.env None None None
    (Some ([] ++ "SRP500" :: ["SRP000002"])) true "sra_url" true =
    ([EvNewSource SRAweb;
      EvSraMetadata (PyOne "SRP500") None (Some true) None None;
      EvDownload Faulty.df500 "/home/user/pysradb_downloads" None true
        None None],
     Raise (OtherException "transfer failed")).
Proof.
  split.
  - apply (download_srp_stops_at_failure Faulty.env None None None
             ["SRP000001"] ["SRP000002"] "SRP404" true "sra_url" true "web"
             (Faulty.source SRAweb) (fun _ => Sample.df)
             (OtherException "not found")
             [EvSraMetadata (PyOne "SRP404") None (Some true) None None]);
      [reflexivity | reflexivity | |].
    + intros y [<- | []]. split; reflexivity.
    + left. split; reflexivity.
  - apply (download_srp_stops_at_failure Faulty.env None None None
             [] ["SRP000002"] "SRP500" true "sra_url" true "web"
             (Faulty.source SRAweb) (fun _ => Faulty.df500)
             (OtherException "transfer failed")
             (srp_calls "/home/user/pysradb_downloads" None true
                (fun _ => Faulty.df500) "SRP500"));
      [reflexivity | reflexivity | |].
    + intros y [].
    + right. split; [reflexivity|]. split; reflexivity.
Defined.

(** X5: with [--srp], [download] reads nothing from standard input and
    ignores both [--col] and [use_wget]: changing the lines on standard
    input, the column name or the protocol switch changes neither the
    trace nor the outcome, and no table is parsed from text. *)
Theorem download_srp_ignores_stdin_and_col (env : Env)
    (out_dir db : option string) (srx srp : option (list string))
    (skip_confirmation : bool) (col1 col2 : string) (use_wget1 use_wget2 : bool)
    (lines : list string) :
  not_list srp = false ->
  download (with_stdin lines env) out_dir db srx srp skip_confirmation
    col1 use_wget1 =
  download env out_dir db srx srp skip_confirmation col2 use_wget2 /\
  Forall (fun ev => ~ is_read_csv ev)
    (trace (download env out_dir db srx srp skip_confirmation col2 use_wget2)).
Proof.
  intros Hsrp. split.
  - unfold download. rewrite Hsrp. reflexivity.
  - unfold download. rewrite Hsrp.
    apply Forall_trace_bind.
    { unfold _check_sradb_file.
      repeat match goal with
             | |- context [match ?x with _ => _ end] => destruct x
             end; constructor. }
    intros db'. apply Forall_trace_bind.
    { unfold get_sra_object. destruct (String.eqb db' "web");
        apply Forall_trace_call; simpl; tauto. }
    intros sradb.
    apply Forall_trace_bind;
      [|intros _; apply Forall_trace_call; simpl; tauto].
    apply Forall_trace_for_each. intros srp_x.
    apply Forall_trace_bind; [apply Forall_trace_call; simpl; tauto|].
    intros md. apply Forall_trace_call. simpl. tauto.
Qed.

Lemma download_srp_ignores_stdin_and_col_witness :
  download (with_stdin ["anything"] Sample.env) None None None
    (Some ["SRP000001"]) false "ena_fastq_ftp" false =
  download Sample.env None None None (Some ["SRP000001"]) false "sra_url" true.
Proof.
  apply (download_srp_ignores_stdin_and_col Sample.env None None None
           (Some ["SRP000001"]) false "ena_fastq_ftp" "sra_url" false true
           ["anything"]).
  reflexivity.
Defined.

(** X6: every download call [download] makes on the source names the same
    directory, [out_dir] or [<cwd>/pysradb_downloads] when none is given,
    and passes [--srx] as [filter_by_srx]; the column of [--col] is passed
    as [url_col] without [--srp] and not at all with it. *)
Theorem download_targets (env : Env) (out_dir db : option string)
    (srx srp : option (list string)) (skip_confirmation : bool)
    (col : string) (use_wget : bool) :
  Forall (fun ev => forall tgt,
            download_target_of ev = Some tgt ->
            tgt = (download_out_dir env out_dir, srx,
                   if not_list srp then Some col else None))
    (trace (download env out_dir db srx srp skip_confirmation col use_wget)).
Proof.
  unfold download. fold (download_out_dir env out_dir).
  apply Forall_trace_bind.
  { unfold _check_sradb_file.
    repeat match goal with
           | |- context [match ?x with _ => _ end] => destruct x
           end; constructor. }
  intros db'. apply Forall_trace_bind.
  { unfold get_sra_object. destruct (String.eqb db' "web");
      apply Forall_trace_call; discriminate. }
  intros sradb.
  apply Forall_trace_bind;
    [|intros _; apply Forall_trace_call; discriminate].
  destruct (not_list srp).
  - apply Forall_trace_bind; [apply Forall_trace_call; discriminate|].
    intros df. apply Forall_trace_call. simpl. congruence.
  - apply Forall_trace_for_each. intros srp_x.
    apply Forall_trace_bind; [apply Forall_trace_call; discriminate|].
    intros md. apply Forall_trace_call. simpl. congruence.
Qed.

(** X7: the download command given an explicit [--db] path that is not an
    existing file raises [RuntimeError] naming the path before anything
    else happens: no source is built, standard input is not parsed and
    nothing is downloaded. *)
Theorem download_missing_snapshot (env : Env) (args : Ns.t) (path : string) :
  Ns.command args = Some "download" ->
  Ns.db args = Some path ->
  isfile env path = false ->
  dispatch env args = ([], Raise (RuntimeError (path +:+ " does not exist"))).
Proof.
  intros Hcmd Hdb Hfile. rewrite dispatch_download by assumption.
  unfold download. rewrite Hdb, check_explicit_missing by assumption.
  reflexivity.
Qed.

Lemma download_missing_snapshot_witness :
  dispatch Sample.env
    (Sample.args_with "download" (Some "/tmp/absent.sqlite") None true false)
  = ([], Raise (RuntimeError "/tmp/absent.sqlite does not exist")).
Proof.
  apply (download_missing_snapshot Sample.env _ "/tmp/absent.sqlite");
    reflexivity.
Defined.

(** ** An explicit snapshot path *)

Lemma check_explicit_file (env : Env) (path : string) :
  isfile env path = true ->
  _check_sradb_file env (Some path) = ret path.
Proof. intros H. unfold _check_sradb_file. now rewrite H. Qed.

(** X8: a conversion or metadata command given an explicit [--db] path
    that is an existing file opens the local snapshot at exactly that path
    as its first action, with one exception: a file named [web] selects
    the web source, because the path is compared with the string ["web"]
    after the check. *)
Theorem explicit_snapshot_selected (env : Env) (args : Ns.t) (path : string) :
  snapshot_command args ->
  Ns.db args = Some path ->
  isfile env path = true ->
  exists rest,
    trace (dispatch env args) =
      EvNewSource (if String.eqb path "web" then SRAweb else SRAdb path)
      :: rest.
Proof.
  intros Hcmd Hdb Hfile.
  assert (Hnew : forall A (k : SraSource -> M A),
            exists rest,
              trace (bind (get_sra_object env path) k) =
                EvNewSource (if String.eqb path "web" then SRAweb
                             else SRAdb path) :: rest).
  { intros A k. unfold get_sra_object.
    destruct (String.eqb path "web"); rewrite trace_bind_call; eauto. }
  destruct Hcmd as [Hcmd | [c Hcmd]].
  - rewrite dispatch_metadata, metadata_unfold by assumption.
    rewrite Hdb, check_explicit_file, bind_ret by assumption. apply Hnew.
  - rewrite dispatch_conversion with (c := c) by assumption.
    rewrite conv_handler_unfold.
    rewrite Hdb, check_explicit_file, bind_ret by assumption. apply Hnew.
Qed.

Lemma explicit_snapshot_selected_witness :
  (exists rest,
     trace (dispatch Faulty.env
              (Sample.args_with "srx-to-srs" (Some "/data/SRAmetadb.sqlite")
                 None false false)) =
       EvNewSource (SRAdb "/data/SRAmetadb.sqlite") :: rest) /\
  (exists rest,
     trace (dispatch Faulty.env
              (Sample.args_with "srx-to-srs" (Some "web") None false false)) =
       EvNewSource SRAweb :: rest).
Proof.
  split.
  - apply (explicit_snapshot_selected Faulty.env
             (Sample.args_with "srx-to-srs" (Some "/data/SRAmetadb.sqlite")
                None false false) "/data/SRAmetadb.sqlite").
    + right. exists M_srx_to_srs. reflexivity.
    + reflexivity.
    + reflexivity.
  - apply (explicit_snapshot_selected Faulty.env
             (Sample.args_with "srx-to-srs" (Some "web") None false false)
             "web").
    + right. exists M_srx_to_srs. reflexivity.
    + reflexivity.
    + reflexivity.
Defined.

(** ** Normalisation of the table read from standard input *)

Lemma append_nil_r (s : string) : s +:+ "" = s.
Proof.
  induction s as [|c s IH]; [reflexivity|].
  rewrite append_cons. now f_equal.
Qed.

Lemma is_tab_eq (c : ascii) : is_tab c = true -> c = tab.
Proof. unfold is_tab. apply Ascii.eqb_eq. Qed.

Lemma is_tab_space (c : ascii) : is_tab c = true -> isspace c = true.
Proof. intros H. apply is_tab_eq in H. now subst. Qed.

Section Tidy.

Variable sp : ascii -> bool.

Lemma tidy_from_cons (b : bool) (c : ascii) (r : string) :
  tidy_from sp b (String c r) = true ->
  (isspace c = true /\ sp c = true /\ b = false /\ tidy_from sp true r = true)
  \/ (isspace c = false /\ tidy_from sp false r = true).
Proof.
  simpl. destruct (isspace c); [|now right].
  intros H. apply andb_prop in H as [H Hr].
  apply andb_prop in H as [Ht Hb]. left.
  repeat split; auto. now destruct b.
Qed.

Lemma tidy_after_space (r : string) :
  tidy_from sp true r = true ->
  exists c r', r = String c r' /\ isspace c = false.
Proof.
  destruct r as [|c r']; [discriminate|]. intros H.
  destruct (tidy_from_cons _ _ _ H) as [(_ & _ & Hb & _) | [Hc _]];
    [discriminate | eauto].
Qed.

Lemma lstrip_tidy (s : string) : tidy_from sp true s = true -> lstrip s = s.
Proof.
  intros H. destruct (tidy_after_space s H) as (c & r & -> & Hc).
  simpl. now rewrite Hc.
Qed.

Lemma lstrip_space_tidy (s : string) :
  tidy_from sp true s = true -> lstrip_space s = s.
Proof.
  intros H. destruct (tidy_after_space s H) as (c & r & -> & Hc).
  simpl. destruct (Ascii.eqb_spec c " ") as [->|_]; [discriminate|].
  reflexivity.
Qed.

Lemma rstrip_tidy (b : bool) (s : string) :
  tidy_from sp b s = true -> rstrip s = s.
Proof.
  revert b. induction s as [|c r IH]; intros b H; [reflexivity|].
  simpl. destruct (tidy_from_cons _ _ _ H) as [(_ & _ & _ & Hr) | [Hc Hr]].
  - rewrite (IH _ Hr).
    destruct (tidy_after_space r Hr) as (c' & r' & -> & _). reflexivity.
  - rewrite (IH _ Hr). destruct r; [now rewrite Hc | reflexivity].
Qed.

Lemma rstrip_tidy_newline (b : bool) (s : string) :
  tidy_from sp b s = true -> rstrip (s +:+ NL) = s.
Proof.
  revert b. induction s as [|c r IH]; intros b H; [reflexivity|].
  rewrite append_cons. simpl.
  destruct (tidy_from_cons _ _ _ H) as [(_ & _ & _ & Hr) | [Hc Hr]].
  - rewrite (IH _ Hr).
    destruct (tidy_after_space r Hr) as (c' & r' & -> & _). reflexivity.
  - rewrite (IH _ Hr). destruct r; [now rewrite Hc | reflexivity].
Qed.

Lemma strip_tidy (s : string) : tidy_from sp true s = true -> strip s = s.
Proof.
  intros H. unfold strip. rewrite (lstrip_tidy s H).
  exact (rstrip_tidy true s H).
Qed.

Lemma strip_tidy_newline (s : string) :
  tidy_from sp true s = true -> strip (s +:+ NL) = s.
Proof.
  intros H. unfold strip.
  destruct (tidy_after_space s H) as (c & r & -> & Hc).
  rewrite append_cons. simpl lstrip. rewrite Hc, <- append_cons.
  exact (rstrip_tidy_newline true _ H).
Qed.

(** A pattern of two or more whitespace classes finds nothing in a tidy
    line. *)
Lemma sub_classes_tidy (p1 p2 : ascii -> bool) (cls : list (ascii -> bool))
    (repl : string) (b : bool) (s : string) :
  space_classes (p1 :: p2 :: cls) ->
  tidy_from sp b s = true ->
  sub_classes_from 0 (p1 :: p2 :: cls) repl s = s.
Proof.
  intros Hcls. inversion Hcls as [|? ? Hp1 Hcls']; subst.
  inversion Hcls' as [|? ? Hp2 _]; subst.
  revert b. induction s as [|c r IH]; intros b H; [reflexivity|].
  assert (Hno : match_classes (p1 :: p2 :: cls) (String c r) = false).
  { simpl. destruct (p1 c) eqn:E1; [|reflexivity].
    apply Hp1 in E1.
    destruct (tidy_from_cons _ _ _ H) as [(_ & _ & _ & Hr) | [Hc _]];
      [|congruence].
    destruct (tidy_after_space r Hr) as (c' & r' & -> & Hc').
    destruct (p2 c') eqn:E2; [|reflexivity].
    apply Hp2 in E2. congruence. }
  change (sub_classes_from 0 (p1 :: p2 :: cls) repl (String c r))
    with (if match_classes (p1 :: p2 :: cls) (String c r)
          then repl +:+ sub_classes_from
                          (Nat.pred (length (p1 :: p2 :: cls)))
                          (p1 :: p2 :: cls) repl r
          else String c (sub_classes_from 0 (p1 :: p2 :: cls) repl r)).
  rewrite Hno. f_equal.
  destruct (tidy_from_cons _ _ _ H) as [(_ & _ & _ & Hr) | [_ Hr]];
    exact (IH _ Hr).
Qed.

(** Collapsing the runs of a class into one tab leaves a tidy line alone
    when the class meets the separators in the tab only: the runs are
    single tabs already. *)
Lemma sub_plus_tidy (p : ascii -> bool) (b in_run : bool) (s : string) :
  (forall c, p c = true -> isspace c = true) ->
  (forall c, p c = true -> sp c = true -> c = tab) ->
  tidy_from sp b s = true ->
  (in_run = true -> b = true) ->
  sub_plus_from in_run p TAB s = s.
Proof.
  intros Hp Htab. revert b in_run.
  induction s as [|c r IH]; intros b in_run H Hrun; [reflexivity|].
  simpl. destruct (p c) eqn:Epc.
  - pose proof (Hp _ Epc) as Hc.
    destruct (tidy_from_cons _ _ _ H) as [(_ & Hsp & -> & Hr) | [Hc' _]];
      [|congruence].
    rewrite (Htab _ Epc Hsp).
    destruct in_run; [now specialize (Hrun eq_refl)|].
    rewrite (IH true true Hr (fun _ => eq_refl)). reflexivity.
  - f_equal.
    destruct (tidy_from_cons _ _ _ H) as [(_ & _ & _ & Hr) | [_ Hr]];
      apply (IH _ false Hr); discriminate.
Qed.

(** The steps of [normalise_line] after [strip], on a tidy line.  The
    header step ([index = 0]) needs the separators to be tabs. *)
Lemma normalise_stripped_tidy (index : nat) (s : string) :
  tidy_from sp true s = true ->
  (index = 0%nat -> forall c, sp c = true -> c = tab) ->
  (let line := lstrip_space s in
   let line := sub_classes [isspace; isspace; isspace] TAB line in
   let line := sub_classes [isspace; isspace] TAB line in
   let line := sub_plus is_tab TAB line in
   let line := sub_classes [isspace; is_tab] TAB line in
   let line := sub_classes [is_tab; isspace] TAB line in
   let line := if (index =? 0)%nat then sub_plus isspace TAB line else line in
   line +:+ NL) = s +:+ NL.
Proof.
  intros H Hhead. cbv zeta. rewrite (lstrip_space_tidy s H).
  unfold sub_classes, sub_plus.
  rewrite (sub_classes_tidy isspace isspace [isspace] TAB true s)
    by (auto; repeat constructor; auto).
  rewrite (sub_classes_tidy isspace isspace [] TAB true s)
    by (auto; repeat constructor; auto).
  rewrite (sub_plus_tidy is_tab true false s is_tab_space
             (fun c Hc _ => is_tab_eq c Hc) H)
    by discriminate.
  rewrite (sub_classes_tidy isspace is_tab [] TAB true s)
    by (auto; repeat constructor; auto using is_tab_space).
  rewrite (sub_classes_tidy is_tab isspace [] TAB true s)
    by (auto; repeat constructor; auto using is_tab_space).
  destruct (Nat.eqb_spec index 0) as [Hz|_]; [|reflexivity].
  rewrite (sub_plus_tidy isspace true false s (fun c Hc => Hc)
             (fun c _ Hc => Hhead Hz c Hc) H)
    by discriminate.
  reflexivity.
Qed.

Lemma normalise_line_tidy (index : nat) (s : string) :
  tidy_from sp true s = true ->
  (index = 0%nat -> forall c, sp c = true -> c = tab) ->
  normalise_line index (s +:+ NL) = s +:+ NL /\
  normalise_line index s = s +:+ NL.
Proof.
  intros H Hhead. unfold normalise_line. split.
  - rewrite (strip_tidy_newline s H).
    exact (normalise_stripped_tidy index s H Hhead).
  - rewrite (strip_tidy s H).
    exact (normalise_stripped_tidy index s H Hhead).
Qed.

End Tidy.

(** X9: the normalisation of [download] leaves well-formed lines alone
    (whitespace being Python's class, [isspace] above).  A
    header line whose only whitespace is single tabs between names, and a
    data line whose only whitespace is single tabs or single blanks
    between non-whitespace characters, both come out unchanged (a line
    that arrives without its line feed gains one). *)
Theorem normalise_line_fixed (index : nat) (s : string) :
  (clean s = true ->
   normalise_line index (s +:+ NL) = s +:+ NL /\
   normalise_line index s = s +:+ NL) /\
  (tidy s = true -> index <> 0%nat ->
   normalise_line index (s +:+ NL) = s +:+ NL /\
   normalise_line index s = s +:+ NL).
Proof.
  split.
  - intros H. apply (normalise_line_tidy is_tab index s H).
    intros _ c. apply is_tab_eq.
  - intros H Hidx. apply (normalise_line_tidy is_tab_or_blank index s H).
    intros Hz. contradiction.
Qed.

Lemma normalise_line_fixed_witness :
  normalise_line 0 (("run_accession" +:+ TAB +:+ "organism_name") +:+ NL)
  = ("run_accession" +:+ TAB +:+ "organism_name") +:+ NL /\
  normalise_line 1 (("SRR000001" +:+ TAB +:+ "Homo sapiens") +:+ NL)
  = ("SRR000001" +:+ TAB +:+ "Homo sapiens") +:+ NL.
Proof.
  split.
  - destruct (proj1 (normalise_line_fixed 0
                       ("run_accession" +:+ TAB +:+ "organism_name"))
                ltac:(vm_compute; reflexivity)) as [H _].
    exact H.
  - destruct (proj2 (normalise_line_fixed 1
                       ("SRR000001" +:+ TAB +:+ "Homo sapiens"))
                ltac:(vm_compute; reflexivity) ltac:(discriminate)) as [H _].
    exact H.
Defined.

Lemma stdin_text_cons (index : nat) (line : string) (r : list string)
    (text : string) :
  stdin_text index (line :: r) text =
    stdin_text (S index) r (text +:+ normalise_line index line).
Proof. reflexivity. Qed.

Lemma concat_lines_cons (line : string) (r : list string) :
  concat_lines (line :: r) = line +:+ concat_lines r.
Proof. reflexivity. Qed.

Lemma stdin_text_tidy (body : list string) (index : nat) (text : string) :
  index <> 0%nat ->
  Forall (fun s => tidy s = true) body ->
  stdin_text index (map with_newline body) text =
    text +:+ concat_lines (map with_newline body).
Proof.
  intros Hidx Hall. revert index text Hidx.
  induction Hall as [|s body Hs _ IH]; intros index text Hidx.
  - simpl. now rewrite append_nil_r.
  - rewrite !map_cons, stdin_text_cons, concat_lines_cons.
    change (with_newline s) with (s +:+ NL).
    rewrite (proj1 (normalise_line_tidy is_tab_or_blank index s Hs
                      (fun Hz => False_ind _ (Hidx Hz)))).
    rewrite IH by discriminate. now rewrite append_assoc.
Qed.

Lemma trace_bind_head {A B} (m : M A) (k : A -> M B) (ev : event)
    (rest : list event) :
  trace m = ev :: rest ->
  exists rest', trace (bind m k) = ev :: rest'.
Proof.
  destruct m as [t [a|e]]; simpl; intros ->; [|eauto].
  unfold bind. destruct (k a). simpl. eauto.
Qed.

Lemma prefix_trace {A} (pre : list event) (m : M A) :
  trace (let '(t, r) := m in (pre ++ t, r)) = pre ++ trace m.
Proof. now destruct m. Qed.

(** X10: a well-formed table on standard input reaches [read_csv]
    untouched.  When the first line is a clean header and every other line
    is tidy (single tabs between fields, at most single blanks inside a
    field), the text [download] parses is the concatenation of the input
    lines, and it is parsed right after the source is built. *)
Theorem download_parses_stdin_verbatim (env : Env)
    (out_dir db : option string) (srx srp : option (list string))
    (skip_confirmation : bool) (col : string) (use_wget : bool)
    (db' : string) (sradb : SraSource) (header : string) (body : list string) :
  _check_sradb_file env db = ret db' ->
  result (get_sra_object env db') = Return sradb ->
  not_list srp = true ->
  stdin env = map with_newline (header :: body) ->
  clean header = true ->
  Forall (fun s => tidy s = true) body ->
  stdin_text 0 (stdin env) "" = concat_lines (stdin env) /\
  exists rest,
    trace (download env out_dir db srx srp skip_confirmation col use_wget) =
      trace (get_sra_object env db')
      ++ EvReadCsv (concat_lines (stdin env)) :: rest.
Proof.
  intros Hcheck Hsrc Hsrp Hin Hh Hbody.
  assert (Htext : stdin_text 0 (stdin env) "" = concat_lines (stdin env)).
  { rewrite Hin, !map_cons, stdin_text_cons, concat_lines_cons.
    change (with_newline header) with (header +:+ NL).
    rewrite (proj1 (normalise_line_tidy is_tab 0 header Hh
                      (fun _ c => is_tab_eq c))).
    now rewrite stdin_text_tidy by (auto; discriminate). }
  split; [exact Htext|].
  rewrite (download_unfold _ _ _ _ _ _ _ _ db' sradb Hcheck Hsrc).
  rewrite Hsrp, Htext. cbv zeta. rewrite prefix_trace.
  match goal with
  | |- exists rest, trace ?pre ++ trace (bind (bind (call ?ev ?ans) ?k) ?k2)
                    = _ =>
      destruct (trace_bind_head (bind (call ev ans) k) k2 ev
                  (match ans with
                   | Return a => trace (k a)
                   | Raise _ => []
                   end) (trace_bind_call ev ans k)) as [rest Hrest]
  end.
  rewrite Hrest. eauto.
Qed.

Lemma download_parses_stdin_verbatim_witness :
  stdin_text 0
    (map with_newline
       ["run_accession" +:+ TAB +:+ "organism_name";
        "SRR000001" +:+ TAB +:+ "Homo sapiens"]) "" =
  concat_lines
    (map with_newline
       ["run_accession" +:+ TAB +:+ "organism_name";
        "SRR000001" +:+ TAB +:+ "Homo sapiens"]).
Proof.
  apply (download_parses_stdin_verbatim
           (with_stdin
              (map with_newline
                 ["run_accession" +:+ TAB +:+ "organism_name";
                  "SRR000001" +:+ TAB +:+ "Homo sapiens"]) Sample.env)
           None None None None false "sra_url" true "web"
           (Sample.source SRAweb)
           ("run_accession" +:+ TAB +:+ "organism_name")
           ["SRR000001" +:+ TAB +:+ "Homo sapiens"]);
    try reflexivity.
  repeat constructor.
Defined.

(** ** What the normalisation does to arbitrary lines *)

Lemma sub_plus_single_tabs (in_run : bool) (s : string) :
  single_tabs_from in_run (sub_plus_from in_run isspace TAB s) = true.
Proof.
  revert in_run. induction s as [|c r IH]; intros in_run; [reflexivity|].
  simpl. destruct (isspace c) eqn:Ec.
  - destruct in_run.
    + change ("" +:+ sub_plus_from true isspace TAB r)
        with (sub_plus_from true isspace TAB r). apply IH.
    + change (TAB +:+ sub_plus_from true isspace TAB r)
        with (String tab (sub_plus_from true isspace TAB r)).
      simpl. apply IH.
  - simpl. rewrite Ec. apply IH.
Qed.

(** X11: whatever the header line looks like, its normalised form
    separates the names by single tabs: every whitespace character of
    the result before the final line feed is a tab, and no two of them are
    adjacent. *)
Theorem header_single_tabs (line : string) :
  exists h,
    normalise_line 0 line = h +:+ NL /\
    single_tabs_from false h = true.
Proof.
  unfold normalise_line. cbv zeta. eexists. split; [reflexivity|].
  change (0 =? 0)%nat with true. cbv iota. unfold sub_plus.
  apply sub_plus_single_tabs.
Qed.

Lemma nonspace_append (a b : string) :
  nonspace (a +:+ b) = nonspace a +:+ nonspace b.
Proof.
  induction a as [|c a IH]; [reflexivity|].
  rewrite append_cons. simpl. destruct (isspace c); [exact IH|].
  rewrite append_cons. now f_equal.
Qed.

Lemma nonspace_lstrip (s : string) : nonspace (lstrip s) = nonspace s.
Proof.
  induction s as [|c r IH]; [reflexivity|].
  simpl. destruct (isspace c) eqn:Ec; [exact IH|].
  simpl. now rewrite Ec.
Qed.

Lemma nonspace_lstrip_space (s : string) :
  nonspace (lstrip_space s) = nonspace s.
Proof.
  induction s as [|c r IH]; [reflexivity|].
  simpl. destruct (Ascii.eqb_spec c " ") as [->|_]; [exact IH|reflexivity].
Qed.

Lemma nonspace_rstrip (s : string) : nonspace (rstrip s) = nonspace s.
Proof.
  induction s as [|c r IH]; [reflexivity|].
  simpl. destruct (rstrip r) as [|c' r'] eqn:Er.
  - simpl in IH. destruct (isspace c) eqn:Ec; simpl; rewrite ?Ec;
      now rewrite <- IH.
  - simpl (nonspace (String c (String c' r'))).
    simpl in IH. destruct (isspace c); now rewrite <- IH.
Qed.

Lemma nonspace_sub_plus (p : ascii -> bool) (in_run : bool) (s : string) :
  (forall c, p c = true -> isspace c = true) ->
  nonspace (sub_plus_from in_run p TAB s) = nonspace s.
Proof.
  intros Hp. revert in_run.
  induction s as [|c r IH]; intros in_run; [reflexivity|].
  simpl. destruct (p c) eqn:Epc.
  - rewrite (Hp _ Epc), nonspace_append, IH.
    destruct in_run; reflexivity.
  - simpl. destruct (isspace c); now rewrite IH.
Qed.

Lemma match_classes_spaces (cls : list (ascii -> bool)) (s : string) :
  space_classes cls ->
  match_classes cls s = true ->
  match_classes (repeat isspace (length cls)) s = true.
Proof.
  intros Hcls. revert s.
  induction Hcls as [|p cls Hp _ IH]; intros s H; [reflexivity|].
  destruct s as [|c r]; [discriminate|]. simpl in *.
  apply andb_prop in H as [Hc Hr]. now rewrite (Hp _ Hc), IH.
Qed.

Lemma nonspace_sub_classes (p : ascii -> bool) (cls : list (ascii -> bool))
    (skip : nat) (s : string) :
  space_classes (p :: cls) ->
  match_classes (repeat isspace skip) s = true ->
  nonspace (sub_classes_from skip (p :: cls) TAB s) = nonspace s.
Proof.
  intros Hcls. revert skip.
  induction s as [|c r IH]; intros skip Hskip; [reflexivity|].
  destruct skip as [|k].
  - change (sub_classes_from 0 (p :: cls) TAB (String c r))
      with (if match_classes (p :: cls) (String c r)
            then TAB +:+ sub_classes_from (length cls) (p :: cls) TAB r
            else String c (sub_classes_from 0 (p :: cls) TAB r)).
    destruct (match_classes (p :: cls) (String c r)) eqn:Em.
    + simpl in Em. apply andb_prop in Em as [Hc Hr].
      inversion Hcls as [|? ? Hp Hcls']; subst.
      rewrite nonspace_append. simpl (nonspace TAB).
      rewrite IH by now apply match_classes_spaces.
      simpl. now rewrite (Hp _ Hc).
    + simpl. destruct (isspace c); now rewrite IH.
  - simpl in Hskip. apply andb_prop in Hskip as [Hc Hr].
    simpl. rewrite Hc. now apply IH.
Qed.

(** X12: the normalisation only touches whitespace: for every line and
    every line number, the non-whitespace characters of the result are
    those of the input line, in the same order. *)
Theorem normalise_line_keeps_text (index : nat) (line : string) :
  nonspace (normalise_line index line) = nonspace line.
Proof.
  assert (Hss : forall c, isspace c = true -> isspace c = true) by auto.
  unfold normalise_line. cbv zeta.
  rewrite nonspace_append. simpl (nonspace NL). rewrite append_nil_r.
  assert (Hlast : forall s,
            nonspace (if (index =? 0)%nat then sub_plus isspace TAB s else s)
            = nonspace s).
  { intros s. destruct (index =? 0)%nat; [|reflexivity].
    now apply nonspace_sub_plus. }
  rewrite Hlast. unfold sub_classes, sub_plus.
  rewrite (nonspace_sub_classes is_tab [isspace] 0)
    by (repeat constructor; auto using is_tab_space).
  rewrite (nonspace_sub_classes isspace [is_tab] 0)
    by (repeat constructor; auto using is_tab_space).
  rewrite (nonspace_sub_plus is_tab false) by apply is_tab_space.
  rewrite (nonspace_sub_classes isspace [isspace] 0)
    by (repeat constructor; auto).
  rewrite (nonspace_sub_classes isspace [isspace; isspace] 0)
    by (repeat constructor; auto).
  rewrite nonspace_lstrip_space. unfold strip.
  now rewrite nonspace_rstrip, nonspace_lstrip.
Qed.

(** ** More on the search command *)

(** X13: a search that goes through: the class is built, [search()] and
    [get_df()] are called in this order, and the table is handed to the
    printer, whose outcome is the outcome of the command. *)
Theorem search_success (env : Env) (saveto db : option string)
    (verbosity return_max : Z) (fields : gmap string pyval)
    (vals : list pyval) (instance : SearchInstance) (df : DataFrame) :
  lookup_all fields (fields_of (backend_of db)) = Some vals ->
  new_search env (backend_of db) verbosity return_max vals = Return instance ->
  inst_search instance = Return tt ->
  inst_get_df instance = Return df ->
  search env saveto db verbosity return_max fields =
    (EvNewSearch (backend_of db) verbosity return_max vals
     :: EvSearch :: EvGetDf :: trace (_print_save_df env df saveto),
     result (_print_save_df env df saveto)).
Proof.
  intros Hvals Hnew Hsearch Hdf.
  rewrite (search_follows_course _ _ _ _ _ _ _ Hvals).
  unfold search_course. rewrite Hnew, Hsearch, Hdf, bind_call_return.
  reflexivity.
Qed.

Lemma search_success_witness :
  search Sample.env (Some "hits.csv") (Some "ena") 2 20
    (<["organism" := VList ["Homo"; "sapiens"]]>
       (search_flags (Sample.args "search"))) =
    ([EvNewSearch EnaSearch 2 20
        [VNone; VNone; VList ["Homo"; "sapiens"]; VNone; VNone; VNone;
         VNone; VNone; VNone; VNone; VNone];
      EvSearch; EvGetDf; EvToCsv Sample.df "hits.csv" Comma],
     Return tt).
Proof.
  apply (search_success Sample.env (Some "hits.csv") (Some "ena") 2 20 _
           [VNone; VNone; VList ["Homo"; "sapiens"]; VNone; VNone; VNone;
            VNone; VNone; VNone; VNone; VNone]
           Sample.instance Sample.df);
    vm_compute; reflexivity.
Defined.

(** X14: the [except] clause of [search] is narrow.  An exception that is
    neither [MissingQueryException] nor [IncorrectFieldException] leaves
    [search] from the constructor and from [search()] alike, and so does
    any exception raised by [get_df()], the two query errors included,
    because that call lies outside the [try] block; in none of these cases
    anything is printed. *)
Theorem search_uncaught_exceptions (env : Env) (saveto db : option string)
    (verbosity return_max : Z) (fields : gmap string pyval)
    (vals : list pyval) (e : exn) :
  lookup_all fields (fields_of (backend_of db)) = Some vals ->
  (~ is_query_error e ->
   new_search env (backend_of db) verbosity return_max vals = Raise e ->
   search env saveto db verbosity return_max fields =
     ([EvNewSearch (backend_of db) verbosity return_max vals], Raise e)) /\
  (forall instance,
     ~ is_query_error e ->
     new_search env (backend_of db) verbosity return_max vals
       = Return instance ->
     inst_search instance = Raise e ->
     search env saveto db verbosity return_max fields =
       ([EvNewSearch (backend_of db) verbosity return_max vals; EvSearch],
        Raise e)) /\
  (forall instance,
     new_search env (backend_of db) verbosity return_max vals
       = Return instance ->
     inst_search instance = Return tt ->
     inst_get_df instance = Raise e ->
     search env saveto db verbosity return_max fields =
       ([EvNewSearch (backend_of db) verbosity return_max vals; EvSearch;
         EvGetDf],
        Raise e)).
Proof.
  intros Hvals. rewrite (search_follows_course _ _ _ _ _ _ _ Hvals).
  unfold search_course. split; [|split].
  - intros He ->. destruct e; simpl in He; try reflexivity; tauto.
  - intros instance He -> ->.
    destruct e; simpl in He; try reflexivity; tauto.
  - intros instance -> -> ->. reflexivity.
Qed.

Lemma search_uncaught_exceptions_witness :
  search Faulty.env None (Some "sra") 2 20
    (search_flags (Sample.args "search")) =
    ([EvNewSearch SraSearch 2 20 (common_values (Sample.args "search"));
      EvSearch],
     Raise (OtherException "HTTP 500")).
Proof.
  apply (proj1 (proj2 (search_uncaught_exceptions Faulty.env None
                         (Some "sra") 2 20
                         (search_flags (Sample.args "search"))
                         (common_values (Sample.args "search"))
                         (OtherException "HTTP 500")
                         ltac:(vm_compute; reflexivity)))
           {| inst_search := Raise (OtherException "HTTP 500");
              inst_get_df := Return Sample.df |});
    [intros [] | reflexivity | reflexivity].
Defined.

Lemma getitems_first_missing (fields : gmap string pyval)
    (keys : list string) (k : string) :
  first_missing fields keys = Some k ->
  getitems fields keys = raise (KeyError k).
Proof.
  induction keys as [|k' keys IH]; intros H; [discriminate|].
  simpl in *. unfold getitem. destruct (fields !! k') as [v|].
  - rewrite bind_ret, (IH H). reflexivity.
  - now inversion H.
Qed.

(** X15: a caller that hands [search] a dictionary lacking one of the
    keys the selected class needs gets a [KeyError] for the first missing
    key, in the order of the constructor parameters; it is not caught, no
    search object is built and nothing is printed. *)
Theorem search_missing_key (env : Env) (saveto db : option string)
    (verbosity return_max : Z) (fields : gmap string pyval) (k : string) :
  first_missing fields (fields_of (backend_of db)) = Some k ->
  search env saveto db verbosity return_max fields = ([], Raise (KeyError k)).
Proof.
  intros H. rewrite search_unfold, (getitems_first_missing _ _ _ H).
  reflexivity.
Qed.

Lemma search_missing_key_witness :
  search Sample.env None (Some "geo") 2 20
    (delete "geo_query" (delete "title" (search_flags (Sample.args "search"))))
  = ([], Raise (KeyError "title")).
Proof.
  apply (search_missing_key Sample.env None (Some "geo") 2 20).
  vm_compute. reflexivity.
Defined.

Lemma getitems_ext (f1 f2 : gmap string pyval) (keys : list string) :
  (forall k, In k keys -> f1 !! k = f2 !! k) ->
  getitems f1 keys = getitems f2 keys.
Proof.
  induction keys as [|k keys IH]; intros H; [reflexivity|].
  simpl. unfold getitem. rewrite (H k (or_introl eq_refl)).
  rewrite IH by (intros k' Hk'; apply H; now right). reflexivity.
Qed.

(** X16: [search] reads its dictionary only at the keys of the selected
    class: two dictionaries that agree there give the same trace and the
    same outcome.  In particular the three GEO-only entries, and the
    [command] and [func] entries the dispatcher leaves in, have no
    influence on a search against the primary archive or the European
    mirror. *)
Theorem search_reads_selected_fields (env : Env) (saveto db : option string)
    (verbosity return_max : Z) (fields1 fields2 : gmap string pyval) :
  (forall k, In k (fields_of (backend_of db)) ->
     fields1 !! k = fields2 !! k) ->
  search env saveto db verbosity return_max fields1 =
  search env saveto db verbosity return_max fields2.
Proof.
  intros H. rewrite !search_unfold. now rewrite (getitems_ext _ _ _ H).
Qed.

Lemma search_reads_selected_fields_witness :
  search Sample.env None (Some "ena") 2 20
    (<["geo_query" := VList ["cancer"]]>
       (delete "func" (search_flags (Sample.args "search")))) =
  search Sample.env None (Some "ena") 2 20
    (search_flags (Sample.args "search")).
Proof.
  apply (search_reads_selected_fields Sample.env None (Some "ena") 2 20).
  intros k Hk. simpl in Hk.
  repeat (destruct Hk as [<- | Hk]; [vm_compute; reflexivity|]).
  destruct Hk.
Defined.

(** ** The dispatcher as a whole *)

Ltac conversion_branch H :=
  first
    [ exact (D_conv _ _ M_gse_to_gsm H) | exact (D_conv _ _ M_gse_to_srp H)
    | exact (D_conv _ _ M_gsm_to_gse H) | exact (D_conv _ _ M_gsm_to_srp H)
    | exact (D_conv _ _ M_gsm_to_srr H) | exact (D_conv _ _ M_gsm_to_srs H)
    | exact (D_conv _ _ M_gsm_to_srx H) | exact (D_conv _ _ M_srp_to_gse H)
    | exact (D_conv _ _ M_srp_to_srr H) | exact (D_conv _ _ M_srp_to_srs H)
    | exact (D_conv _ _ M_srp_to_srx H) | exact (D_conv _ _ M_srr_to_gsm H)
    | exact (D_conv _ _ M_srr_to_srp H) | exact (D_conv _ _ M_srr_to_srs H)
    | exact (D_conv _ _ M_srr_to_srx H) | exact (D_conv _ _ M_srs_to_gsm H)
    | exact (D_conv _ _ M_srs_to_srx H) | exact (D_conv _ _ M_srx_to_srp H)
    | exact (D_conv _ _ M_srx_to_srr H) | exact (D_conv _ _ M_srx_to_srs H) ].

Ltac dispatch_branch :=
  lazymatch goal with
  | |- dispatched _ ?args
         (if bool_decide (Ns.command ?args = Some ?n) then _ else _) =>
      let H := fresh "Hc" in
      destruct (decide (Ns.command args = Some n)) as [H|H];
      [ rewrite (bool_decide_eq_true_2 _ H); cbv iota;
        first [ exact (D_metadb _ _ H) | exact (D_metadata _ _ H)
              | exact (D_download _ _ H) | exact (D_search _ _ H)
              | conversion_branch H ]
      | rewrite (bool_decide_eq_false_2 _ H); cbv iota ]
  end.

(** Every run of [dispatch] is one handler applied to the namespace, the
    one whose subcommand name [args.command] equals, or nothing when the
    command is none of the registered names. *)
Lemma dispatch_cases (env : Env) (args : Ns.t) :
  dispatched env args (dispatch env args).
Proof.
  unfold dispatch. repeat dispatch_branch.
  apply D_none. intros name Hreg Heq. apply Hreg. clear Hreg.
  unfold subparser_func.
  repeat match goal with
         | |- context [String.eqb name ?x] =>
             destruct (String.eqb_spec name x) as [->|_]; [congruence|]
         end.
  reflexivity.
Qed.

Lemma getitems_trace (fields : gmap string pyval) (keys : list string) :
  trace (getitems fields keys) = [].
Proof.
  induction keys as [|k keys IH]; [reflexivity|].
  simpl. unfold getitem. destruct (fields !! k) as [v|]; [|reflexivity].
  rewrite bind_ret. destruct (getitems fields keys) as [t [vs|e]];
    simpl in *; now subst.
Qed.

Lemma Forall_trace_try {A} (P : event -> Prop) (m : M A) (h : exn -> M A) :
  Forall P (trace m) ->
  (forall e, Forall P (trace (h e))) ->
  Forall P (trace (try_except_query m h)).
Proof.
  intros Hm Hh. destruct m as [t [a|e]]; [exact Hm|].
  destruct e; try exact Hm; simpl;
    match goal with
    | |- context [h ?e] =>
        specialize (Hh e); destruct (h e) as [t' r]
    end; simpl in *; apply Forall_app; now split.
Qed.

Lemma Forall_trace_search (P : event -> Prop) (env : Env)
    (saveto db : option string) (verbosity return_max : Z)
    (fields : gmap string pyval) :
  (forall b v m a, P (EvNewSearch b v m a)) ->
  P EvSearch -> P EvGetDf ->
  (forall text, P (EvPrint text)) ->
  (forall d p s, P (EvToCsv d p s)) ->
  Forall P (trace (search env saveto db verbosity return_max fields)).
Proof.
  intros Hnew Hsearch Hget Hprint Hcsv. rewrite search_unfold.
  apply Forall_trace_bind.
  - apply Forall_trace_try.
    + apply Forall_trace_bind; [|intros; constructor].
      apply Forall_trace_bind; [rewrite getitems_trace; constructor|].
      intros vals. apply Forall_trace_bind; [now apply Forall_trace_call|].
      intros instance.
      apply Forall_trace_bind; [now apply Forall_trace_call|].
      intros; constructor.
    + intros e. apply Forall_trace_bind; [now apply Forall_trace_call|].
      intros; constructor.
  - intros [instance|]; [|constructor].
    apply Forall_trace_bind; [now apply Forall_trace_call|].
    intros df. now apply Forall_trace_print_save.
Qed.

Lemma Forall_trace_check (P : event -> Prop) (env : Env) (db : option string) :
  Forall P (trace (_check_sradb_file env db)).
Proof.
  unfold _check_sradb_file.
  repeat match goal with
         | |- context [match ?x with _ => _ end] => destruct x
         end; constructor.
Qed.

Lemma Forall_trace_new_source (P : event -> Prop) (env : Env) (db : string) :
  (forall k, P (EvNewSource k)) ->
  Forall P (trace (get_sra_object env db)).
Proof.
  intros H. unfold get_sra_object.
  destruct (String.eqb db "web"); now apply Forall_trace_call.
Qed.

(** X17: the snapshot file is fetched by the [metadb] command and by no
    other: for [metadb] the whole run is the one call of
    [download_sradb_file], into [--out-dir] or the working directory, with
    the two flags; for every other namespace [download_sradb_file] is
    never called. *)
Theorem only_metadb_fetches_snapshot (env : Env) (args : Ns.t) :
  (Ns.command args = Some "metadb" ->
   trace (dispatch env args) =
     [EvDownloadSradbFile (default (getcwd env) (Ns.out_dir args))
        (Ns.overwrite args) (Ns.keep_gz args)]) /\
  (Ns.command args <> Some "metadb" ->
   Forall (fun ev => ~ is_snapshot_download ev) (trace (dispatch env args))).
Proof.
  split.
  - intros Hcmd. unfold dispatch. rewrite Hcmd.
    destruct (Ns.out_dir args); reflexivity.
  - intros Hcmd.
    destruct (dispatch_cases env args) as [_ | H | _ | _ | _ | c _].
    + constructor.
    + contradiction.
    + rewrite metadata_unfold.
      apply Forall_trace_bind; [apply Forall_trace_check|]. intros db'.
      apply Forall_trace_bind;
        [apply Forall_trace_new_source; simpl; tauto|].
      intros sradb.
      apply Forall_trace_bind; [apply Forall_trace_call; simpl; tauto|].
      intros df.
      apply Forall_trace_bind; [apply Forall_trace_print_save; simpl; tauto|].
      intros _. apply Forall_trace_call. simpl. tauto.
    + apply download_trace_events; simpl; tauto.
    + apply Forall_trace_search; simpl; tauto.
    + rewrite conv_handler_unfold.
      apply Forall_trace_bind; [apply Forall_trace_check|]. intros db'.
      apply Forall_trace_bind;
        [apply Forall_trace_new_source; simpl; tauto|].
      intros sradb. apply no_snapshot_download_via_contract.
Qed.

Lemma only_metadb_fetches_snapshot_witness :
  trace (dispatch Sample.env (Sample.args "metadb")) =
    [EvDownloadSradbFile "/home/user" false false] /\
  Forall (fun ev => ~ is_snapshot_download ev)
    (trace (dispatch Sample.env (Sample.args "search"))).
Proof.
  split.
  - apply (proj1 (only_metadb_fetches_snapshot Sample.env
                    (Sample.args "metadb"))).
    reflexivity.
  - apply (proj2 (only_metadb_fetches_snapshot Sample.env
                    (Sample.args "search"))).
    discriminate.
Defined.

(** X18: a namespace whose command is not one of the registered
    subcommand names (or is absent) makes [dispatch] do nothing: it
    returns without an external call and without an exception. *)
Theorem dispatch_unregistered_is_noop (env : Env) (args : Ns.t) :
  (forall name, registered name -> Ns.command args <> Some name) ->
  dispatch env args = ([], Return tt).
Proof.
  intros Hnone.
  assert (Hreg : forall name, registered name ->
                   Ns.command args = Some name -> False)
    by (intros name Hr; exact (Hnone name Hr)).
  destruct (dispatch_cases env args) as [_ | H | H | H | H | c H].
  - reflexivity.
  - destruct (Hreg "metadb" ltac:(vm_compute; discriminate) H).
  - destruct (Hreg "metadata" ltac:(vm_compute; discriminate) H).
  - destruct (Hreg "download" ltac:(vm_compute; discriminate) H).
  - destruct (Hreg "search" ltac:(vm_compute; discriminate) H).
  - assert (Hc : registered (command_name c))
      by (destruct c; vm_compute; discriminate).
    destruct (Hreg _ Hc H).
Qed.

Lemma dispatch_unregistered_is_noop_witness :
  dispatch Sample.env (Sample.args "srp-to-srz") = ([], Return tt).
Proof.
  apply (dispatch_unregistered_is_noop Sample.env (Sample.args "srp-to-srz")).
  intros name Hreg Heq. apply Hreg.
  injection Heq as <-. reflexivity.
Defined.

(** X19: registration and dispatch agree on every conversion subcommand
    but one.  For the subcommand name of a conversion, [dispatch] runs the
    handler of that conversion; the [func] default registered under that
    name is the same handler exactly when the conversion is not
    [gse_to_srp]. *)
Theorem registration_matches_dispatch (env : Env) (args : Ns.t)
    (c : conversion) :
  Ns.command args = Some (command_name c) ->
  dispatch env args =
    conv_handler c env (conv_ids args c) (Ns.db args) (Ns.saveto args)
      (Ns.detailed args) (Ns.desc args) (Ns.expand args) /\
  (subparser_func (command_name c) = Some (H_conv c) <-> c <> M_gse_to_srp).
Proof.
  intros Hcmd. split; [now apply dispatch_conversion|].
  destruct c; split; intros H; try reflexivity; try discriminate;
    try congruence.
Qed.

Lemma registration_matches_dispatch_witness :
  subparser_func (command_name M_srs_to_gsm) = Some (H_conv M_srs_to_gsm) /\
  subparser_func (command_name M_gse_to_srp) <> Some (H_conv M_gse_to_srp).
Proof.
  split.
  - apply (proj2 (registration_matches_dispatch Sample.env
                    (Sample.args "srs-to-gsm") M_srs_to_gsm eq_refl)).
    discriminate.
  - intros H.
    apply (proj2 (registration_matches_dispatch Sample.env
                    (Sample.args "gse-to-srp") M_gse_to_srp eq_refl)) in H.
    now apply H.
Defined.

(** ** The file name test of the printer *)

Lemma lower_append (a b : string) : lower (a +:+ b) = lower a +:+ lower b.
Proof.
  induction a as [|c a IH]; [reflexivity|].
  rewrite append_cons. simpl. rewrite append_cons. now f_equal.
Qed.

Lemma length_lower (s : string) : String.length (lower s) = String.length s.
Proof. induction s as [|c s IH]; simpl; [reflexivity | now f_equal]. Qed.

Lemma substring_all (s : string) : String.substring 0 (String.length s) s = s.
Proof. induction s as [|c s IH]; simpl; [reflexivity | now f_equal]. Qed.

Lemma substring_append (a b : string) :
  String.substring (String.length a) (String.length b) (a +:+ b) = b.
Proof.
  induction a as [|c a IH]; [apply substring_all|].
  rewrite append_cons. simpl. exact IH.
Qed.

Lemma endswith_append (a b : string) : endswith (a +:+ b) b = true.
Proof.
  unfold endswith. rewrite length_append.
  replace (String.length a + String.length b - String.length b)%nat
    with (String.length a) by lia.
  rewrite substring_append, String.eqb_refl.
  rewrite andb_true_r. apply Nat.leb_le. lia.
Qed.

(** X20: the extension test looks at the end of the path and ignores
    letter case: whatever precedes it, a path ending in any spelling of
    [.csv] ([.CSV], [.Csv], ...) receives the table comma-separated, by
    one call of [to_csv] whose outcome is the outcome of the printer. *)
Theorem csv_extension_any_case (env : Env) (df : DataFrame)
    (stem ext : string) :
  lower ext = ".csv" ->
  _print_save_df env df (Some (stem +:+ ext)) =
    ([EvToCsv df (stem +:+ ext) Comma], to_csv env df (stem +:+ ext) Comma).
Proof.
  intros Hext.
  assert (Hne : stem +:+ ext <> "").
  { intros H. apply (f_equal String.length) in H.
    rewrite length_append, <- (length_lower ext), Hext in H.
    simpl in H. lia. }
  rewrite print_save_df_file by assumption.
  now rewrite lower_append, Hext, endswith_append.
Qed.

Lemma csv_extension_any_case_witness :
  _print_save_df Faulty.env Sample.df (Some ("/readonly/Runs 2020" +:+ ".CsV"))
  = ([EvToCsv Sample.df ("/readonly/Runs 2020" +:+ ".CsV") Comma],
     Raise (OtherException "Permission denied")).
Proof.
  apply (csv_extension_any_case Faulty.env Sample.df
           "/readonly/Runs 2020" ".CsV").
  reflexivity.
Defined.

(** ** The metadata command *)

(** X21: the metadata command routes its four flags by name, although
    [metadata] takes them in another order than the conversion handlers:
    the one [sra_metadata] call carries [--assay] as [assay], [--detailed]
    as [detailed], [--desc] as [sample_attribute] and [--expand] as
    [expand_sample_attributes]; when every step succeeds the table is
    delivered and the source closed last. *)
Theorem metadata_routes_flags (env : Env) (args : Ns.t)
    (db' : string) (sradb : SraSource) (df : DataFrame) :
  Ns.command args = Some "metadata" ->
  _check_sradb_file env (Ns.db args) = ret db' ->
  result (get_sra_object env db') = Return sradb ->
  src_sra_metadata sradb (Ns.srp_id args) (Some (Ns.assay args))
    (Some (Ns.detailed args)) (Some (Ns.desc args)) (Some (Ns.expand args))
    = Return df ->
  result (_print_save_df env df (Ns.saveto args)) = Return tt ->
  dispatch env args =
    (trace (get_sra_object env db')
     ++ EvSraMetadata (Ns.srp_id args) (Some (Ns.assay args))
          (Some (Ns.detailed args)) (Some (Ns.desc args))
          (Some (Ns.expand args))
        :: trace (_print_save_df env df (Ns.saveto args)) ++ [EvClose],
     src_close sradb).
Proof.
  intros Hcmd Hcheck Hsrc Hmd Hout.
  rewrite dispatch_metadata, metadata_unfold by assumption.
  rewrite Hcheck, bind_ret, (bind_step _ _ sradb Hsrc).
  rewrite Hmd, bind_call_return, (bind_step _ _ tt Hout).
  reflexivity.
Qed.

Lemma metadata_routes_flags_witness :
  dispatch Sample.env (Sample.args "metadata") =
    ([EvNewSource SRAweb;
      EvSraMetadata (PyOne "SRP000001") (Some false) (Some false)
        (Some false) (Some false);
      EvPrint (stdout_text Sample.env Sample.df);
      EvClose],
     Return tt).
Proof.
  apply (metadata_routes_flags Sample.env (Sample.args "metadata") "web"
           (Sample.source SRAweb) Sample.df); reflexivity.
Defined.

(** ** The dictionary handed to [search] *)

(** X22: the four [pop] calls of the dispatcher remove their keys: the
    dictionary [search] receives has no entry for [saveto], [db],
    [verbosity] or [max], it still carries [command] and [func], and under
    each of the fourteen filter keys it holds the attribute of that
    name. *)
Theorem search_flags_contents (args : Ns.t) :
  search_flags args !! "saveto" = None /\
  search_flags args !! "db" = None /\
  search_flags args !! "verbosity" = None /\
  search_flags args !! "max" = None /\
  search_flags args !! "command" = Some (of_opt_str (Ns.command args)) /\
  search_flags args !! "func" = Some (VFunc (Ns.func args)) /\
  lookup_all (search_flags args) (common_fields ++ geo_only_fields)
    = Some (common_values args ++ geo_only_values args) /\
  size (search_flags args) = 16%nat.
Proof.
  repeat split; vm_compute; reflexivity.
Qed.

(** ** The lines printed on standard output *)

Lemma lstrip_no_leading_space (s : string) :
  starts_with_space (lstrip s) = false.
Proof.
  induction s as [|c r IH]; [reflexivity|].
  simpl. destruct (isspace c) eqn:Ec; [exact IH|]. simpl. exact Ec.
Qed.

(** X23: the text printed for a table with rows is the header followed
    by one line per line of the rendering taken after the leading
    whitespace of the whole rendering has been removed (so blank lines at
    its start are lost), and none of these lines begins with whitespace,
    whatever padding the rendering puts in front of them. *)
Theorem printed_lines_left_aligned (env : Env) (df : DataFrame)
    (saveto : option string) :
  no_path saveto ->
  rows df <> [] ->
  exists ls,
    trace (_print_save_df env df saveto) =
      [EvPrint (join linesep (join TAB (columns df) :: ls))] /\
    length ls = length (split_lines (lstrip (to_string env df))) /\
    Forall (fun l => starts_with_space l = false) ls.
Proof.
  intros Hno Hrows.
  rewrite print_save_df_stdout by now apply no_path_truthy.
  rewrite index_len_pos by assumption.
  exists (map lstrip (split_lines (lstrip (to_string env df)))).
  split; [reflexivity|]. split; [apply length_map|].
  apply Forall_map, Forall_forall. intros l _.
  apply lstrip_no_leading_space.
Qed.

Lemma printed_lines_left_aligned_witness :
  exists ls,
    trace (_print_save_df
             (with_stdin [] Sample.env)
             {| columns := ["a"; "b"];
                rows := [["1"; "2"]; ["3"; "4"]] |} None) =
      [EvPrint (join linesep (join TAB ["a"; "b"] :: ls))] /\
    length ls = 2%nat /\
    Forall (fun l => starts_with_space l = false) ls.
Proof.
  apply (printed_lines_left_aligned (with_stdin [] Sample.env)
           {| columns := ["a"; "b"]; rows := [["1"; "2"]; ["3"; "4"]] |}
           None).
  - left. reflexivity.
  - discriminate.
Defined.
